(** * cloudwatch-to-graphite: the [leadbutt] pipeline

    A shallow embedding of [src/leadbutt.py]: option resolution, the
    enhanced-monitoring unit tables and record flattening, the metric line
    formatter, gap filling, the per-metric time window and the driver loop.

    Conventions of the embedding.
    - Python values are [pyval]; a [dict] whose iteration order the program
      observes is an association list in that order, a [dict] that is only
      looked up and updated by key (options, formatting contexts, a metric
      spec) is a [gmap string pyval].
    - An exception is a [Raise e] result; what was written to [sys.stdout]
      before the exception stays written.
    - The module is written for Python 2 and for Python 3 (lines 32-36 choose
      [text_type] by [sys.version_info]); the two differ on four things the
      module does, and the functions that do one of them take the
      [interpreter]: [/] on two [int]s (line 213), the value of [filter]
      (line 301), the type of a large integer (lines 227 and 245) and the
      exception of [time.sleep] for a negative length (line 396).
    - A naive [datetime] is its number of microseconds since the epoch, a
      [timedelta] a number of microseconds; both have the range Python gives
      them, and arithmetic that leaves the range raises [OverflowError].
    - Text is a string of code points below 256; every string of the program
      is a [unicode] string.
    - The clock moves while the run waits for a remote service or sleeps, and
      stands still otherwise: two readings of the clock in one statement
      (lines 363 and 417) give the same instant.  The window functions take
      the two readings apart. *)

From Stdlib Require Import ZArith Lia List Ascii String Bool.
From stdpp Require Import base option gmap strings pretty list fin_maps.

Local Open Scope string_scope.
Local Open Scope list_scope.
Local Open Scope Z_scope.

(** ** Python values and exceptions *)

#[local] Set Warnings "-register-all".

(** [VInt] is an integer; a [float] is kept as its printed form, the only
    thing the program does with one is to print it.  The keys of a [dict] are
    strings. *)
Inductive pyval : Type :=
| VNone
| VBool (b : bool)
| VInt (n : Z)
| VFloat (repr : string)
| VStr (s : string)
| VList (l : list pyval)
| VDict (d : list (string * pyval)).

(** [Unmodelled] and [OutOfFuel] are not Python exceptions: the first marks a
    run that leaves the fragment of Python embedded here (a [%] conversion
    other than [%(key)s] and [%%], the printed form of a container, arithmetic
    on a value that is not an [int], a time before the epoch given to
    [strftime]), the second a loop that did not finish within the fuel it was
    given.  No handler of the program catches them. *)
Inductive exn : Type :=
| KeyError (key : pyval)
| AttributeError
| IndexError
| TypeError
| ValueError
| SyntaxError
| ZeroDivisionError
| OverflowError
| IOError
| RemoteError (code : Z)
| RetryError
| Unmodelled
| OutOfFuel.

Inductive pyresult (A : Type) : Type :=
| Ok (a : A)
| Raise (e : exn).

Arguments Ok {A} a.
Arguments Raise {A} e.

Definition and_then {A B} (r : pyresult A) (k : A -> pyresult B) : pyresult B :=
  match r with
  | Ok a => k a
  | Raise e => Raise e
  end.

(** The interpreter that runs the module.  Python 2 has two integer types:
    an integer within [-sys.maxint - 1, sys.maxint] is an [int], one beyond
    is a [long]. *)
Inductive interpreter : Type :=
| Python2 (maxint : Z)
| Python3.

(** ** Option resolution: [get_options] *)

Module OptionResolver.

Definition DEFAULT_OPTIONS : gmap string pyval :=
  <["Period" := VInt 1]>
  (<["Count" := VInt 5]>
  (<["Formatter" :=
       VStr "cloudwatch.%(Namespace)s.%(dimension)s.%(MetricName)s.%(statistic)s.%(Unit)s"]>
   ∅)).

(** [d.update(other)]: every key of [other] overwrites the key of [d]. *)
Definition update (d other : gmap string pyval) : gmap string pyval := other ∪ d.

Definition get_options (config_options local_options cli_options : option (gmap string pyval))
  : gmap string pyval :=
  let options := DEFAULT_OPTIONS in
  let options :=
    match config_options with Some c => update options c | None => options end in
  let options :=
    match local_options with Some l => update options l | None => options end in
  let options :=
    match cli_options with Some c => update options c | None => options end in
  options.

(** The value a tier gives to a key: nothing when the tier is absent. *)
Definition tier_lookup (tier : option (gmap string pyval)) (k : string) : option pyval :=
  match tier with Some m => m !! k | None => None end.

(** The value of the first tier, in the order given, that defines the key. *)
Fixpoint first_defined (tiers : list (option (gmap string pyval))) (k : string)
  : option pyval :=
  match tiers with
  | [] => None
  | t :: rest =>
      match tier_lookup t k with
      | Some v => Some v
      | None => first_defined rest k
      end
  end.

End OptionResolver.

(** ** Strings: [replace], [lower] and [%]-formatting

    A character is a code point below 256; on these [lower] is the lower-case
    mapping of Unicode: the letters A-Z and the capital letters of Latin-1
    (U+00C0 to U+00DE without the multiplication sign) move up by 32, every
    other code point stays. *)

Module PyString.


Definition is_upper (c : ascii) : bool :=
  let n := N_of_ascii c in
  ((65 <=? n) && (n <=? 90) || (192 <=? n) && (n <=? 222) && negb (n =? 215))%N.

Definition lower_char (c : ascii) : ascii :=
  if is_upper c then ascii_of_N (N_of_ascii c + 32) else c.

Fixpoint lower (s : string) : string :=
  match s with
  | EmptyString => EmptyString
  | String c rest => String (lower_char c) (lower rest)
  end.

(** [s.replace(old, new)] for one-character [old] and [new]. *)
Fixpoint replace (old new : ascii) (s : string) : string :=
  match s with
  | EmptyString => EmptyString
  | String c rest =>
      String (if Ascii.eqb c old then new else c) (replace old new rest)
  end.

Fixpoint all_chars (p : ascii -> bool) (s : string) : bool :=
  match s with
  | EmptyString => true
  | String c rest => p c && all_chars p rest
  end.

Definition no_slash (s : string) : bool :=
  all_chars (fun c => negb (Ascii.eqb c "/")) s.
Definition no_upper (s : string) : bool := all_chars (fun c => negb (is_upper c)) s.

(** The metric-name segment of a line: [rendered.replace('/', '.').lower()]. *)
Definition sanitize (rendered : string) : string := lower (replace "/" "." rendered).

(** [str(v)], as [%s] prints a value.  The printed form of a container is
    not modelled. *)
Definition py_str (v : pyval) : option string :=
  match v with
  | VNone => Some "None"
  | VBool true => Some "True"
  | VBool false => Some "False"
  | VInt n => Some (pretty n)
  | VFloat repr => Some repr
  | VStr s => Some s
  | VList _ | VDict _ => None
  end.

(** [formatter % context] for a mapping [context].  The scanner reads the
    template from left to right: plain text is copied, [%%] gives a percent
    sign, [%(key)s] looks the key up when its closing parenthesis is read
    (a missing key is a [KeyError]) and prints the value with [str]. *)
Inductive scan : Type :=
| InText
| AfterPercent
| InKey (key : string)
| AfterKey (v : pyval).

Fixpoint format_from (st : scan) (context : gmap string pyval) (template : string)
  : pyresult string :=
  match template with
  | EmptyString =>
      match st with
      | InText => Ok EmptyString
      | _ => Raise ValueError
      end
  | String c rest =>
      match st with
      | InText =>
          if Ascii.eqb c "%" then format_from AfterPercent context rest
          else
            match format_from InText context rest with
            | Ok out => Ok (String c out)
            | Raise e => Raise e
            end
      | AfterPercent =>
          if Ascii.eqb c "%" then
            match format_from InText context rest with
            | Ok out => Ok (String "%" out)
            | Raise e => Raise e
            end
          else if Ascii.eqb c "(" then format_from (InKey EmptyString) context rest
          else Raise Unmodelled
      | InKey key =>
          if Ascii.eqb c ")" then
            match context !! key with
            | Some v => format_from (AfterKey v) context rest
            | None => Raise (KeyError (VStr key))
            end
          else if Ascii.eqb c "(" then Raise Unmodelled
          else format_from (InKey (key ++ String c EmptyString)) context rest
      | AfterKey v =>
          if Ascii.eqb c "s" then
            match py_str v with
            | Some printed =>
                match format_from InText context rest with
                | Ok out => Ok (String.append printed out)
                | Raise e => Raise e
                end
            | None => Raise Unmodelled
            end
          else Raise Unmodelled
      end
  end.

Definition format (formatter : string) (context : gmap string pyval) : pyresult string :=
  format_from InText context formatter.

End PyString.

(** ** The world the program runs in: clock, standard output, call log *)

Module Run.

(** A number as it stands in the last field of a line: an [int], or the
    [float] that the true division of two [int]s gives, kept as the
    division. *)
Inductive pynum : Type :=
| PInt (n : Z)
| PQuot (dividend divisor : Z).

(** A line written to [sys.stdout]: ['{0} {1} {2}\n'.format(name, value, time)].
    The output stream is taken to have an encoding for every character. *)
Record OutputLine : Type := mkLine {
  line_name : string;
  line_value : pyval;
  line_time : pynum
}.

(** The arguments of [connection.get_metric_statistics]. *)
Record MetricRequest : Type := mkMetricRequest {
  req_period : Z;
  req_start_time : Z;
  req_end_time : Z;
  req_metric_name : pyval;
  req_namespace : pyval;
  req_statistics : pyval;
  req_dimensions : pyval;
  req_unit : option pyval
}.

(** The arguments of [connection.get_log_events]; the times are in
    milliseconds. *)
Record LogRequest : Type := mkLogRequest {
  log_start_from_head : bool;
  log_limit : Z;
  log_start_time : Z;
  log_end_time : Z;
  log_stream_name : string;
  log_group_name : pyval
}.

(** What the run did to the outside, in order, each with the clock reading
    at which it began. *)
Inductive Event : Type :=
| EvMetricCall (at_time : Z) (req : MetricRequest)
| EvLogCall (at_time : Z) (req : LogRequest)
| EvStreams (at_time : Z) (group : pyval)
| EvSleep (at_time : Z) (ms : Z).

Record World : Type := mkWorld {
  now : Z;
  stdout : list OutputLine;
  trace : list Event
}.

(** A computation reads and changes the world and returns or raises. *)
Definition M (A : Type) : Type := World -> pyresult A * World.

Definition ret {A} (a : A) : M A := fun w => (Ok a, w).
Definition raise {A} (e : exn) : M A := fun w => (Raise e, w).
Definition bind {A B} (m : M A) (k : A -> M B) : M B :=
  fun w =>
    match m w with
    | (Ok a, w') => k a w'
    | (Raise e, w') => (Raise e, w')
    end.
Definition lift {A} (r : pyresult A) : M A := fun w => (r, w).

Declare Scope run_scope.
Delimit Scope run_scope with run.
Notation "x <- c1 ;; c2" := (bind c1 (fun x => c2))
  (at level 100, c1 at next level, right associativity) : run_scope.
Notation "c1 ;; c2" := (bind c1 (fun _ => c2))
  (at level 100, right associativity) : run_scope.
Local Open Scope run_scope.

Fixpoint for_each {A} (l : list A) (body : A -> M unit) : M unit :=
  match l with
  | [] => ret tt
  | x :: rest => body x ;; for_each rest body
  end.

(** A loop whose body updates a local dictionary. *)
Fixpoint fold_each {A S} (l : list A) (body : S -> A -> M S) (s : S) : M S :=
  match l with
  | [] => ret s
  | x :: rest => s' <- body s x ;; fold_each rest body s'
  end.

Definition write (line : OutputLine) : M unit :=
  fun w => (Ok tt, mkWorld (now w) (stdout w ++ [line]) (trace w)).

Definition clock : M Z := fun w => (Ok (now w), w).

(** [time.sleep(ms / 1000.0)]; a negative length is refused, with [IOError]
    by Python 2 and with [ValueError] by Python 3. *)
Definition sleep_ms (py : interpreter) (ms : Z) : M unit :=
  fun w =>
    if ms <? 0 then
      (Raise match py with Python2 _ => IOError | Python3 => ValueError end, w)
    else (Ok tt, mkWorld (now w + 1000 * ms) (stdout w) (trace w ++ [EvSleep (now w) ms])).

End Run.

(** ** Dictionaries in iteration order, and the static tables *)

Module Tables.

Fixpoint dict_get {V} (d : list (string * V)) (k : string) : option V :=
  match d with
  | [] => None
  | (k', v) :: rest => if String.eqb k' k then Some v else dict_get rest k
  end.

(** [d[k]] *)
Definition subscript {V} (d : list (string * V)) (k : string) : pyresult V :=
  match dict_get d k with
  | Some v => Ok v
  | None => Raise (KeyError (VStr k))
  end.

(** [m[k]] for a dictionary kept as a finite map. *)
Definition item (m : gmap string pyval) (k : string) : pyresult pyval :=
  match m !! k with
  | Some v => Ok v
  | None => Raise (KeyError (VStr k))
  end.

Definition as_int (v : pyval) : pyresult Z :=
  match v with
  | VInt n => Ok n
  | _ => Raise Unmodelled
  end.

Definition list_map : list (string * string) :=
  [("network", "interface"); ("diskIO", "device"); ("fileSys", "name");
   ("processList", "name")].

(** [statistic_dict[list_map.get(category)]]: for a category outside
    [list_map] the key is [None], which no dictionary of the message has. *)
Definition log_list_map (category : string) (statistic_dict : list (string * pyval))
  : pyresult pyval :=
  match dict_get list_map category with
  | Some field => subscript statistic_dict field
  | None => Raise (KeyError VNone)
  end.

Definition unit_map : list (string * list (string * string)) :=
  [("cpuUtilization",
    [("guest", "Percent"); ("irq", "Percent"); ("system", "Percent");
     ("wait", "Percent"); ("idle", "Percent"); ("user", "Percent");
     ("total", "Percent"); ("steal", "Percent"); ("nice", "Percent")]);
   ("loadAverageMinute",
    [("fifteen", "Count"); ("five", "Count"); ("one", "Count")]);
   ("memory",
    [("writeback", "Kilobytes"); ("hugePagesFree", "Count");
     ("hugePagesRsvd", "Count"); ("hugePagesSurp", "Count");
     ("hugePagesTotal", "Count"); ("cached", "Kilobytes");
     ("hugePagesSize", "Kilobytes"); ("pageTables", "Kilobytes");
     ("dirty", "Kilobytes"); ("mapped", "Kilobytes"); ("active", "Kilobytes");
     ("total", "Kilobytes"); ("slab", "Kilobytes"); ("buffers", "Kilobytes")]);
   ("tasks",
    [("sleeping", "Count"); ("zombie", "Count"); ("running", "Count");
     ("stopped", "Count"); ("total", "Count"); ("blocked", "Count")]);
   ("swap",
    [("cached", "Kilobytes"); ("total", "Kilobytes"); ("free", "Kilobytes")]);
   ("network",
    [("rx", "Bytes/Second"); ("tx", "Bytes/Second")]);
   ("diskIO",
    [("writeKbPS", "Kilobytes/Second"); ("readIOsPS", "IO/Second");
     ("await", "Milliseconds"); ("readKbPS", "Kilobytes/Second");
     ("rrqmPS", "IO/Second"); ("util", "Percent");
     ("avgQueueLen", "Milliseconds"); ("tps", "Count"); ("readKb", "Kilobytes");
     ("writeKb", "Kilobytes"); ("avgReqSz", "Kilobytes");
     ("wrqmPS", "IO/Second"); ("writeIOsPS", "IO/Second")]);
   ("fileSys",
    [("used", "Kilobytes"); ("usedFiles", "Count"); ("usedFilePercent", "Percent");
     ("maxFiles", "Count"); ("total", "Kilobytes"); ("usedPercent", "Percent")]);
   ("processList",
    [("vss", "Kilobytes"); ("tgid", "Count"); ("parentID", "Count");
     ("memoryUsedPc", "Percent"); ("cpuUsedPc", "Percent"); ("id", "Count");
     ("rss", "Kilobytes")])].

(** [unit_map[category].get(statistic, 'Count')] *)
Definition unit_type_map (category statistic : string) : pyresult string :=
  match subscript unit_map category with
  | Ok units =>
      match dict_get units statistic with
      | Some u => Ok u
      | None => Ok "Count"
      end
  | Raise e => Raise e
  end.

End Tables.

(** ** Dates and times: [datetime] and [timedelta]

    A [datetime] lies between [datetime.min], the first instant of the year
    1, and [datetime.max], the last microsecond of the year 9999; a
    [timedelta] has at most 999999999 days. *)

Module DateTime.

Definition datetime_min : Z := -62135596800000000.
Definition datetime_max : Z := 253402300799999999.

Definition is_datetime (t : Z) : bool := (datetime_min <=? t) && (t <=? datetime_max).

(** [datetime.timedelta(seconds=seconds)] for an [int]. *)
Definition timedelta_seconds (seconds : Z) : pyresult Z :=
  if (-999999999 <=? seconds / 86400) && (seconds / 86400 <=? 999999999)
  then Ok (seconds * 1000000)
  else Raise OverflowError.

(** [t + delta] and [t - delta] for a [datetime] and a [timedelta]. *)
Definition datetime_add (t delta : Z) : pyresult Z :=
  if is_datetime (t + delta) then Ok (t + delta) else Raise OverflowError.

Definition datetime_sub (t delta : Z) : pyresult Z :=
  if is_datetime (t - delta) then Ok (t - delta) else Raise OverflowError.

(** [t - datetime.timedelta(microseconds=t.microsecond)] *)
Definition shave (t : Z) : Z := t - t mod 1000000.

(** [int(time.time())] from the clock in microseconds. *)
Definition whole_seconds (time_time : Z) : Z := Z.quot time_time 1000000.

(** [timegm(t.timetuple())]: the whole seconds of a timestamp. *)
Definition timegm (t : Z) : Z := t / 1000000.

End DateTime.

(** ** Enhanced monitoring: [output_log_results] and [process_log_results] *)

Module Logs.
Import PyString Run Tables.
Local Open Scope run_scope.

(** One event of a log stream.  [message] is what
    [ast.literal_eval(result['message'])] does: the value it returns, or the
    exception it raises ([SyntaxError] for a text that is no Python
    expression, [ValueError] for an expression that is no literal). *)
Record LogEvent : Type := mkLogEvent {
  ingestionTime : Z;
  message : pyresult pyval
}.

(** [n / d] for two [int]s, [d] not zero: the floor of the quotient under
    Python 2, a [float] under Python 3. *)
Definition divide (py : interpreter) (n d : Z) : pynum :=
  match py with
  | Python2 _ => PInt (n / d)
  | Python3 => PQuot n d
  end.

(** [type(value) is int or type(value) is float]: a [bool] is neither, and
    under Python 2 an integer beyond [sys.maxint] is a [long]. *)
Definition is_number (py : interpreter) (v : pyval) : bool :=
  match v with
  | VInt n =>
      match py with
      | Python2 maxint => (- maxint - 1 <=? n) && (n <=? maxint)
      | Python3 => true
      end
  | VFloat _ => true
  | _ => false
  end.

Definition output_log_results (formatter : pyval) (ingestion_time : pynum)
    (context : gmap string pyval) (value : pyval) : M unit :=
  match formatter with
  | VStr f =>
      rendered <- lift (format f context) ;;
      write (mkLine (sanitize rendered) value ingestion_time)
  | _ => raise TypeError
  end.

(** The body of the two innermost loops, which differ in the formatter
    option they read: one statistic of one dictionary. *)
Definition process_statistic (py : interpreter) (formatter_option : string)
    (options : gmap string pyval) (ingestion_time : pynum) (category : string)
    (context : gmap string pyval) (entry : string * pyval) : M (gmap string pyval) :=
  let '(statistic, value) := entry in
  let context := <["Statistic" := VStr statistic]> context in
  if is_number py value then
    unit <- lift (unit_type_map category statistic) ;;
    let context := <["Unit" := VStr unit]> context in
    formatter <- lift (item options formatter_option) ;;
    output_log_results formatter ingestion_time context value ;;
    ret context
  else ret context.

Definition process_list_element (py : interpreter) (options : gmap string pyval)
    (ingestion_time : pynum) (category : string) (context : gmap string pyval)
    (statistic_dict : pyval) : M (gmap string pyval) :=
  match statistic_dict with
  | VDict d =>
      sub <- lift (log_list_map category d) ;;
      let context := <["ListCategory" := sub]> context in
      fold_each d (process_statistic py "ListFormatter" options ingestion_time category)
        context
  | _ => raise AttributeError
  end.

Definition process_category (py : interpreter) (options : gmap string pyval)
    (ingestion_time : pynum) (context : gmap string pyval) (entry : string * pyval)
  : M (gmap string pyval) :=
  let '(category, statistics) := entry in
  let context := <["MetricName" := VStr category]> context in
  match statistics with
  | VDict d =>
      fold_each d (process_statistic py "Formatter" options ingestion_time category) context
  | VList l =>
      fold_each l (process_list_element py options ingestion_time category) context
  | _ => ret context
  end.

Definition process_event (py : interpreter) (options : gmap string pyval)
    (context : gmap string pyval) (result : LogEvent) : M (gmap string pyval) :=
  let ingestion_time := divide py (ingestionTime result) 1000 in
  match message result with
  | Raise e => raise e
  | Ok (VDict msg) =>
      instance <- lift (subscript msg "instanceID") ;;
      let context := <["Dimension" := instance]> context in
      let context := <["Namespace" := VStr "AWS/RDS"]> context in
      fold_each msg (process_category py options ingestion_time) context
  | Ok _ => raise TypeError
  end.

(** The events of one stream, from a context that is created once, before
    the loop, and handed from each event to the next. *)
Definition process_events (py : interpreter) (options : gmap string pyval)
    (results : list LogEvent) (context : gmap string pyval) : M (gmap string pyval) :=
  fold_each results (process_event py options) context.

Definition process_log_results (py : interpreter) (results : list LogEvent)
    (options : gmap string pyval) : M unit :=
  process_events py options results ∅ ;; ret tt.

End Logs.

(** ** Metrics: [output_results] and [value_pad_results] *)

Module Metrics.
Import PyString Run Tables DateTime.
Local Open Scope run_scope.

(** One point of a result set: a dictionary with a [Timestamp] and, in
    [fields], its other keys ([Unit] and one key per statistic). *)
Record ResultPoint : Type := mkPoint {
  Timestamp : Z;
  fields : list (string * pyval)
}.

(** [result[key]]; a [Timestamp] is a [datetime], which is not printed here.
    A key that is not a string is in no result; a list or a dictionary cannot
    be a key at all. *)
Definition point_item (result : ResultPoint) (key : pyval) : pyresult pyval :=
  match key with
  | VStr k =>
      if String.eqb k "Timestamp" then Raise Unmodelled else subscript (fields result) k
  | VList _ | VDict _ => Raise TypeError
  | _ => Raise (KeyError key)
  end.

(** [list(metric['Dimensions'].values())[0]], with the handler for
    [AttributeError]. *)
Definition dimension_of (metric : gmap string pyval) : pyresult pyval :=
  match item metric "Dimensions" with
  | Ok (VDict ((_, v) :: _)) => Ok v
  | Ok (VDict []) => Raise IndexError
  | Ok _ => Ok (VStr "")
  | Raise e => Raise e
  end.

(** The context as it is when the loop over the results starts. *)
Definition initial_context (metric : gmap string pyval) : pyresult (gmap string pyval) :=
  match dimension_of metric with
  | Ok d => Ok (<["dimension" := d]> metric)
  | Raise e => Raise e
  end.

Definition stat_keys_of (statistics : pyval) : list pyval :=
  match statistics with
  | VList l => l
  | v => [v]
  end.

Definition output_statistic (formatter : pyval) (result : ResultPoint)
    (context : gmap string pyval) (statistic : pyval) : M (gmap string pyval) :=
  let context := <["statistic" := statistic]> context in
  unit <- lift (subscript (fields result) "Unit") ;;
  let context := <["Unit" := unit]> context in
  match formatter with
  | VStr f =>
      rendered <- lift (format f context) ;;
      value <- lift (point_item result statistic) ;;
      write (mkLine (sanitize rendered) value (PInt (timegm (Timestamp result)))) ;;
      ret context
  | _ => raise TypeError
  end.

Definition output_result (formatter : pyval) (metric : gmap string pyval)
    (context : gmap string pyval) (result : ResultPoint) : M (gmap string pyval) :=
  statistics <- lift (item metric "Statistics") ;;
  fold_each (stat_keys_of statistics) (output_statistic formatter result) context.

Definition output_results (results : list ResultPoint) (metric options : gmap string pyval)
  : M unit :=
  formatter <- lift (item options "Formatter") ;;
  context <- lift (initial_context metric) ;;
  fold_each results (output_result formatter metric) context ;;
  ret tt.

(** The point [value_pad_results] appends for a missing timestamp. *)
Definition padding (this_time : Z) (value : pyval) : ResultPoint :=
  mkPoint this_time [("Sum", value); ("Unit", VStr "Count")].

Definition has_timestamp (results : list ResultPoint) (t : Z) : bool :=
  existsb (fun x => Timestamp x =? t) results.

(** [not filter(lambda x: x['Timestamp'] == this_time, results)]: under
    Python 2 [filter] gives the list of the points at [this_time], which is
    false when it is empty; under Python 3 it gives an iterator, and an
    iterator is never false. *)
Definition not_filter (py : interpreter) (results : list ResultPoint) (this_time : Z)
  : bool :=
  match py with
  | Python2 _ => negb (has_timestamp results this_time)
  | Python3 => false
  end.

(** The [while] loop.  The step is made in each turn, after the point is
    appended. *)
Fixpoint pad_loop (py : interpreter) (fuel : nat) (this_time end_time interval : Z)
    (value : pyval) (results : list ResultPoint) : pyresult (list ResultPoint) :=
  if this_time <? end_time then
    match fuel with
    | O => Raise OutOfFuel
    | S fuel' =>
        let results :=
          if not_filter py results this_time
          then results ++ [padding this_time value]
          else results in
        and_then (timedelta_seconds (interval * 60)) (fun step =>
        and_then (datetime_add this_time step) (fun this_time =>
        pad_loop py fuel' this_time end_time interval value results))
    end
  else Ok results.

Definition value_pad_results (py : interpreter) (fuel : nat) (results : list ResultPoint)
    (start_time end_time interval : Z) (value : pyval) : pyresult (list ResultPoint) :=
  let this_time := shave start_time in
  let end_time := shave end_time in
  pad_loop py fuel this_time end_time interval value results.

End Metrics.

(** ** The remote services and the retrying fetch *)

Module Remote.
Import Run Logs Metrics.
Local Open Scope run_scope.

Inductive answer (A : Type) : Type :=
| Success (a : A)
| Failure (code : Z).

Arguments Success {A} a.
Arguments Failure {A} code.

(** A remote service answers a request after some time (in microseconds);
    the answer may depend on the clock and on what the run did before. *)
Record CloudWatch : Type := mkCloudWatch {
  remote_metric_statistics : MetricRequest -> World -> N * answer (list ResultPoint)
}.

Record CloudWatchLogs : Type := mkCloudWatchLogs {
  remote_log_streams : pyval -> World -> N * answer (list string);
  remote_log_events : LogRequest -> World -> N * answer (list LogEvent)
}.

Definition remote_call {A} (ev : Event) (reply : N * answer A) : M A :=
  fun w =>
    let w' := mkWorld (now w + Z.of_N (fst reply)) (stdout w) (trace w ++ [ev]) in
    match snd reply with
    | Success a => (Ok a, w')
    | Failure code => (Raise (RemoteError code), w')
    end.

(** [connection.get_metric_statistics] on the keyword arguments of a request. *)
Definition call_metric_statistics (connection : CloudWatch) (req : MetricRequest)
  : M (list ResultPoint) :=
  fun w => remote_call (EvMetricCall (now w) req)
             (remote_metric_statistics connection req w) w.

(** [connection.get_log_events] on the keyword arguments of a request. *)
Definition call_log_events (connection : CloudWatchLogs) (req : LogRequest)
  : M (list LogEvent) :=
  fun w => remote_call (EvLogCall (now w) req) (remote_log_events connection req w) w.

(** [logs_conn.describe_log_streams(log_group_name=log_group)], with the
    stream names plucked out. *)
Definition describe_log_streams (connection : CloudWatchLogs) (log_group : pyval)
  : M (list string) :=
  fun w => remote_call (EvStreams (now w) log_group)
             (remote_log_streams connection log_group w) w.

(** The keyword arguments of the [@retry] decorator; the waits and the delay
    are in milliseconds. *)
Record RetryPolicy : Type := mkPolicy {
  wait_exponential_multiplier : option Z;
  wait_exponential_max : option Z;
  stop_max_delay : Z
}.

(** Modelled from the spec: the wait of the [retry] decorator, which the
    module imports from the [retrying] package and src/ does not contain.
    Spec section 4.3: the wait starts at the initial wait and doubles on each
    subsequent failure, capped at the maximum; section 8: the wait after
    failure number [i], counted from zero, is [min(initial * 2^i, max)].  An
    absent initial wait is no wait, an absent maximum no cap. *)
Definition wait_ms (policy : RetryPolicy) (failures : nat) : Z :=
  match wait_exponential_multiplier policy with
  | None => 0
  | Some initial =>
      let wait := initial * 2 ^ Z.of_nat failures in
      match wait_exponential_max policy with
      | Some cap => Z.min wait cap
      | None => wait
      end
  end.

(** Modelled from the spec: the state Waiting of the fetcher.  The wait is
    entered in the call log like a sleep; a negative wait is no wait. *)
Definition wait_for (ms : Z) : M unit :=
  fun w =>
    (Ok tt,
     mkWorld (now w + 1000 * Z.max 0 ms) (stdout w)
       (trace w ++ [EvSleep (now w) (Z.max 0 ms)])).

(** Modelled from the spec: the state Exhausted of the fetcher.  Sections
    4.3 and 8: the time since the first attempt is bounded by the deadline
    and the fatal error is raised at or after the deadline, so it is raised
    at the deadline. *)
Definition exhausted {A} (deadline : Z) : M A :=
  fun w => (Raise RetryError, mkWorld deadline (stdout w) (trace w)).

(** Modelled from the spec: the loop of the [retry] decorator, absent from
    src/, as the state machine of spec section 4.3,
    Idle, Attempting, then Success, or Waiting and Attempting again, or
    Exhausted.  [deadline] is the instant [stop_max_delay] after the first
    attempt.  An attempt that succeeds by the deadline returns its result.
    After an attempt that fails the fetcher waits and attempts again, unless
    the next attempt would start after the deadline (section 8: no attempt
    starts after it); then, and when the deadline passes while an attempt is
    under way, the fetcher is exhausted. *)
Fixpoint retry_loop {A} (fuel : nat) (policy : RetryPolicy) (call : M A)
    (deadline : Z) (failures : nat) : M A :=
  match fuel with
  | O => raise OutOfFuel
  | S fuel' =>
      fun w =>
        match call w with
        | (r, w') =>
            if deadline <? now w' then exhausted deadline w'
            else
              match r with
              | Ok a => (Ok a, w')
              | Raise _ =>
                  let wait := wait_ms policy failures in
                  if deadline <? now w' + 1000 * Z.max 0 wait then exhausted deadline w'
                  else (wait_for wait ;;
                        retry_loop fuel' policy call deadline (S failures)) w'
              end
        end
  end.

(** Modelled from the spec: the fetcher, from the state Idle.  With a
    deadline before the first attempt there is no attempt to make. *)
Definition retry {A} (fuel : nat) (policy : RetryPolicy) (call : M A) : M A :=
  fun w =>
    if stop_max_delay policy <? 0 then (Raise RetryError, w)
    else retry_loop fuel policy call (now w + 1000 * stop_max_delay policy) 0 w.

End Remote.

(** ** The driver: [leadbutt] *)

Module Driver.
Import PyString Run Tables DateTime Logs Metrics Remote OptionResolver.
Local Open Scope run_scope.

(** The configuration as [get_config] returns it. *)
Record Config : Type := mkConfig {
  cfg_Options : option (gmap string pyval);
  cfg_Metrics : option (list (gmap string pyval));
  cfg_EnhancedMonitoring : option (gmap string pyval)
}.

(** The keyword arguments [main] passes on, in milliseconds. *)
Record Kwargs : Type := mkKwargs {
  interval : option Z;
  max_interval : option Z
}.

(** The decorator of [get_metric_statistics]: the deadline is
    [cli_options['Count'] * cli_options['Period'] * 60 * 1000]. *)
Definition retry_policy (cli_options : gmap string pyval) (kwargs : Kwargs)
  : pyresult RetryPolicy :=
  and_then (and_then (item cli_options "Count") as_int) (fun count =>
  and_then (and_then (item cli_options "Period") as_int) (fun period =>
  Ok (mkPolicy (interval kwargs) (max_interval kwargs) (count * period * 60 * 1000)))).

(** The wrapper that carries the [@retry] decorator. *)
Definition get_metric_statistics (fuel : nat) (policy : RetryPolicy)
    (connection : CloudWatch) (req : MetricRequest) : M (list ResultPoint) :=
  retry fuel policy (call_metric_statistics connection req).

(** The wrapper for the log events: it carries no decorator. *)
Definition get_logs_statistics (connection : CloudWatchLogs) (req : LogRequest)
  : M (list LogEvent) :=
  call_log_events connection req.

(** [metric.get('Options')] as an argument of [get_options]. *)
Definition local_options_of (metric : gmap string pyval)
  : pyresult (option (gmap string pyval)) :=
  match metric !! "Options" with
  | None | Some VNone => Ok None
  | Some (VDict d) => Ok (Some (list_to_map d))
  | Some _ => Raise Unmodelled
  end.

(** [datetime.datetime.utcnow() -
     datetime.timedelta(seconds=int(time.time()) % period_local)], from the
    two clock readings. *)
Definition end_time_of (utcnow time_time period_local : Z) : pyresult Z :=
  if period_local =? 0 then Raise ZeroDivisionError
  else
    and_then (timedelta_seconds (whole_seconds time_time mod period_local)) (fun delta =>
    datetime_sub utcnow delta).

(** [end_time - datetime.timedelta(seconds=period_local * count_local)] *)
Definition start_time_of (end_time period_local count_local : Z) : pyresult Z :=
  and_then (timedelta_seconds (period_local * count_local)) (fun delta =>
  datetime_sub end_time delta).

(** The window of one metric: [(start_time, end_time)]. *)
Definition time_window (utcnow time_time period_local count_local : Z)
  : pyresult (Z * Z) :=
  and_then (end_time_of utcnow time_time period_local) (fun end_time =>
  and_then (start_time_of end_time period_local count_local) (fun start_time =>
  Ok (start_time, end_time))).

Definition metric_names_of (metric_names : pyval) : list pyval :=
  match metric_names with
  | VList l => l
  | v => [v]
  end.

(** ['NullIsZero' in options and metric_name in options['NullIsZero']], and
    the interval found there.  The keys of the dictionary are strings; a
    name that is a list or a dictionary cannot be looked for in one. *)
Definition null_is_zero (options : gmap string pyval) (metric_name : pyval)
  : pyresult (option pyval) :=
  match options !! "NullIsZero" with
  | None => Ok None
  | Some (VDict d) =>
      match metric_name with
      | VStr name => Ok (dict_get d name)
      | VList _ | VDict _ => Raise TypeError
      | _ => Ok None
      end
  | Some VNone => Raise TypeError
  | Some _ => Raise Unmodelled
  end.

(** The keyword arguments of the call for one name, evaluated in the order
    they are written. *)
Definition request_of (metric : gmap string pyval) (unit_wanted : option pyval)
    (period_local start_time end_time : Z) (metric_name : pyval)
  : pyresult MetricRequest :=
  and_then (item metric "Namespace") (fun namespace =>
  and_then (item metric "Statistics") (fun statistics =>
  and_then (item metric "Dimensions") (fun dimensions =>
  Ok (mkMetricRequest period_local start_time end_time metric_name
        namespace statistics dimensions unit_wanted)))).

(** The results padded when the options name the metric under [NullIsZero]. *)
Definition pad_if_asked (py : interpreter) (fuel : nat) (options : gmap string pyval)
    (metric_name : pyval) (start_time end_time : Z) (results : list ResultPoint)
  : pyresult (list ResultPoint) :=
  and_then (null_is_zero options metric_name) (fun found =>
    match found with
    | Some minutes =>
        and_then (as_int minutes) (fun minutes =>
        value_pad_results py fuel results start_time end_time minutes (VInt 0))
    | None => Ok results
    end).

(** The body of the loop over the names of one metric. *)
Definition fetch_cycle (py : interpreter) (fuel : nat) (policy : RetryPolicy)
    (conn : CloudWatch) (kwargs : Kwargs) (options metric : gmap string pyval)
    (unit_wanted : option pyval) (period_local start_time end_time : Z)
    (metric_name : pyval) : M unit :=
  let this_metric := <["MetricName" := metric_name]> metric in
  req <- lift (request_of metric unit_wanted period_local start_time end_time
                 metric_name) ;;
  results <- get_metric_statistics fuel policy conn req ;;
  padded <- lift (pad_if_asked py fuel options metric_name start_time end_time results) ;;
  output_results padded this_metric options ;;
  sleep_ms py (default 0 (interval kwargs)).

(** The body of the loop over [config['Metrics']]. *)
Definition process_metric (py : interpreter) (fuel : nat) (policy : RetryPolicy)
    (conn : CloudWatch) (kwargs : Kwargs) (config_options : option (gmap string pyval))
    (cli_options metric : gmap string pyval) : M unit :=
  local_options <- lift (local_options_of metric) ;;
  let options := get_options config_options local_options (Some cli_options) in
  period <- lift (and_then (item options "Period") as_int) ;;
  let period_local := period * 60 in
  count_local <- lift (and_then (item options "Count") as_int) ;;
  utcnow <- clock ;;
  time_time <- clock ;;
  window <- lift (time_window utcnow time_time period_local count_local) ;;
  let '(start_time, end_time) := window in
  let unit_wanted := metric !! "Unit" in
  metric_names <- lift (item metric "MetricName") ;;
  for_each (metric_names_of metric_names)
    (fetch_cycle py fuel policy conn kwargs options metric unit_wanted period_local
       start_time end_time).

(** The end of the window of the enhanced-monitoring pass, in milliseconds:
    [int((datetime.datetime.now() - timedelta(seconds=int(time.time()) %
    period_local)).strftime("%s")) * 1000], from the two clock readings.
    [strftime("%s")] gives the seconds since the epoch of a local time; it
    is modelled for times that are not before the epoch. *)
Definition log_end_time_of (now_local time_time period_local : Z) : pyresult Z :=
  if period_local =? 0 then Raise ZeroDivisionError
  else
    and_then (timedelta_seconds (whole_seconds time_time mod period_local)) (fun delta =>
    and_then (datetime_sub now_local delta) (fun t =>
    if t <? 0 then Raise Unmodelled else Ok (t / 1000000 * 1000))).

Definition process_stream (py : interpreter) (logs_conn : CloudWatchLogs)
    (options : gmap string pyval) (log_group : pyval) (start_time end_time : Z)
    (stream : string) : M unit :=
  results <- get_logs_statistics logs_conn
               (mkLogRequest false 50 start_time end_time stream log_group) ;;
  process_log_results py results options ;;
  sleep_ms py 500.

Definition enhanced_monitoring_pass (py : interpreter) (logs_conn : CloudWatchLogs)
    (config_options : option (gmap string pyval))
    (cli_options enhanced_monitoring : gmap string pyval) : M unit :=
  let options := get_options config_options None (Some cli_options) in
  period <- lift (and_then (item options "Period") as_int) ;;
  let period_local := period * 60 in
  count_local <- lift (and_then (item options "Count") as_int) ;;
  log_group <- lift (item enhanced_monitoring "LogGroup") ;;
  let options :=
    match enhanced_monitoring !! "Formatter" with
    | Some f => <["Formatter" := f]> options
    | None => options
    end in
  list_formatter <-
    match enhanced_monitoring !! "ListFormatter" with
    | Some f => ret f
    | None => lift (item options "Formatter")
    end ;;
  let options := <["ListFormatter" := list_formatter]> options in
  now_local <- clock ;;
  time_time <- clock ;;
  end_time <- lift (log_end_time_of now_local time_time period_local) ;;
  let start_time := end_time - period_local * count_local * 1000 in
  streams <- describe_log_streams logs_conn log_group ;;
  for_each streams (process_stream py logs_conn options log_group start_time end_time).

Definition leadbutt (py : interpreter) (fuel : nat) (conn : CloudWatch)
    (logs_conn : CloudWatchLogs) (config : Config) (cli_options : gmap string pyval)
    (kwargs : Kwargs) : M unit :=
  policy <- lift (retry_policy cli_options kwargs) ;;
  match cfg_Metrics config with
  | Some metrics =>
      for_each metrics
        (process_metric py fuel policy conn kwargs (cfg_Options config) cli_options)
  | None => ret tt
  end ;;
  match cfg_EnhancedMonitoring config with
  | Some enhanced_monitoring =>
      if decide (size enhanced_monitoring = 0%nat) then ret tt
      else enhanced_monitoring_pass py logs_conn (cfg_Options config) cli_options
             enhanced_monitoring
  | None => ret tt
  end.

End Driver.

(** ** Notions the properties are stated with *)

Module Notions.
Import PyString Run Tables DateTime Logs Metrics Remote Driver OptionResolver.

Definition known_categories : list string :=
  ["cpuUtilization"; "loadAverageMinute"; "memory"; "tasks"; "swap"; "network";
   "diskIO"; "fileSys"; "processList"].

Definition list_categories : list string :=
  ["network"; "diskIO"; "fileSys"; "processList"].

(** The timestamps [first], [first + step], ..., [n] of them. *)
Fixpoint timestamps (first step : Z) (n : nat) : list Z :=
  match n with
  | O => []
  | S n' => first :: timestamps (first + step) step n'
  end.

(** Those of the timestamps [ts] at which [results] has no point. *)
Definition missing (results : list ResultPoint) (ts : list Z) : list Z :=
  List.filter (fun t => negb (has_timestamp results t)) ts.

(** The number of turns of the loop from [first] up to [end_time]. *)
Definition turns (first end_time step : Z) : nat :=
  Z.to_nat ((end_time - first + step - 1) / step).

(** An expected timestamp: [start_time] without its microseconds plus a
    multiple of the interval, strictly before [end_time] without its
    microseconds. *)
Definition expected_timestamp (start_time end_time interval t : Z) : Prop :=
  exists k : nat,
    t = shave start_time + Z.of_nat k * (interval * 60 * 1000000) /\
    t < shave end_time.

(** A window that [value_pad_results] can walk with a positive interval:
    the start is a [datetime], the interval a [timedelta], and the step
    after the last turn, which is made before the loop ends, stays within
    the range of [datetime]. *)
Definition walkable (start_time end_time interval : Z) : Prop :=
  0 < interval <= 1000000000 /\
  datetime_min <= start_time /\
  end_time + interval * 60 * 1000000 <= datetime_max.

(** [appends log P Q m]: whatever the world, [m] only appends to the list
    [log] of the world, every entry it appends satisfies [P], and a value it
    returns satisfies [Q]. *)
Definition appends {X A} (log : World -> list X) (P : X -> Prop) (Q : A -> Prop)
    (m : M A) : Prop :=
  forall w,
    (exists new, log (snd (m w)) = log w ++ new /\ Forall P new) /\
    (forall a, fst (m w) = Ok a -> Q a).

(** A line whose name is the sanitized rendering of [formatter] in a context
    that satisfies [I]. *)
Definition formatted_with (formatter : pyval) (I : gmap string pyval -> Prop)
    (line : OutputLine) : Prop :=
  exists f context rendered,
    formatter = VStr f /\ I context /\ format f context = Ok rendered /\
    line_name line = sanitize rendered.

Definition has_dimension (d : pyval) (context : gmap string pyval) : Prop :=
  context !! "dimension" = Some d.

Definition is_mapping (v : pyval) : Prop :=
  match v with
  | VDict _ => True
  | _ => False
  end.

(** A property of the context that the keys set for each line leave alone. *)
Definition kept_by_line_keys (I : gmap string pyval -> Prop) : Prop :=
  forall context statistic unit,
    I context -> I (<["Unit" := unit]> (<["statistic" := statistic]> context)).

(** A name free of ['/'] and without an upper-case letter: lowering it
    again changes nothing. *)
Definition sanitized (name : string) : Prop :=
  no_slash name = true /\ no_upper name = true /\ lower name = name.

(** [name] is [(formatter % context).replace('/', '.').lower()]. *)
Definition name_in (formatter : pyval) (context : gmap string pyval) (name : string)
  : Prop :=
  exists f rendered,
    formatter = VStr f /\ format f context = Ok rendered /\ name = sanitize rendered.

(** The line of one result and one statistic of a metric whose context,
    before the loop, is [context]: what one turn of the inner loop of
    [output_results] writes, or the exception that ends the output. *)
Definition metric_line (formatter : pyval) (context : gmap string pyval)
    (result : ResultPoint) (statistic : pyval) : pyresult OutputLine :=
  and_then (subscript (fields result) "Unit") (fun unit =>
  match formatter with
  | VStr f =>
      and_then (format f (<["Unit" := unit]> (<["statistic" := statistic]> context)))
        (fun rendered =>
      and_then (point_item result statistic) (fun value =>
      Ok (mkLine (sanitize rendered) value (PInt (timegm (Timestamp result))))))
  | _ => Raise TypeError
  end).

(** The turns of the loops of [output_results], in order: one per result and
    statistic. *)
Definition result_lines (formatter : pyval) (metric context : gmap string pyval)
    (result : ResultPoint) : list (pyresult OutputLine) :=
  match item metric "Statistics" with
  | Ok statistics => map (metric_line formatter context result) (stat_keys_of statistics)
  | Raise e => [Raise e]
  end.

Definition metric_lines (formatter : pyval) (metric context : gmap string pyval)
    (results : list ResultPoint) : list (pyresult OutputLine) :=
  flat_map (result_lines formatter metric context) results.

(** What is written of a sequence of turns, and how it ends: the lines up to
    the first turn that raises. *)
Fixpoint written (lines : list (pyresult OutputLine)) : list OutputLine * pyresult unit :=
  match lines with
  | [] => ([], Ok tt)
  | Ok line :: rest => let '(more, outcome) := written rest in (line :: more, outcome)
  | Raise e :: _ => ([], Raise e)
  end.

(** The world after [lines] were written. *)
Definition wrote (w : World) (lines : list OutputLine) : World :=
  mkWorld (now w) (stdout w ++ lines) (trace w).

(** A context that differs from [context0] at most in the two keys that are
    set anew for each line. *)
Definition same_but_line_keys (context0 context : gmap string pyval) : Prop :=
  forall unit statistic,
    <["Unit" := unit]> (<["statistic" := statistic]> context) =
    <["Unit" := unit]> (<["statistic" := statistic]> context0).

(** What [output_results] writes and how it ends. *)
Definition output_of (results : list ResultPoint) (metric options : gmap string pyval)
  : list OutputLine * pyresult unit :=
  match item options "Formatter" with
  | Raise e => ([], Raise e)
  | Ok formatter =>
      match initial_context metric with
      | Raise e => ([], Raise e)
      | Ok context => written (metric_lines formatter metric context results)
      end
  end.

(** The lines a fetch cycle writes for the results of its fetch: those of
    the results, padded when the options ask for it, of the metric under the
    name of the cycle. *)
Definition cycle_lines (py : interpreter) (fuel : nat) (options metric : gmap string pyval)
    (start_time end_time : Z) (metric_name : pyval) (results : list ResultPoint)
  : list OutputLine :=
  match pad_if_asked py fuel options metric_name start_time end_time results with
  | Ok padded => fst (output_of padded (<["MetricName" := metric_name]> metric) options)
  | Raise _ => []
  end.



(** What is settled for one metric before its names are fetched: the
    resolved options, the period in seconds, the window and the names. *)
Record Plan : Type := mkPlan {
  plan_options : gmap string pyval;
  plan_period : Z;
  plan_count : Z;
  plan_start_time : Z;
  plan_end_time : Z;
  plan_names : list pyval
}.

Definition metric_plan (config_options : option (gmap string pyval))
    (cli_options metric : gmap string pyval) (now : Z) : pyresult Plan :=
  and_then (local_options_of metric) (fun local_options =>
  let options := get_options config_options local_options (Some cli_options) in
  and_then (and_then (item options "Period") as_int) (fun period =>
  and_then (and_then (item options "Count") as_int) (fun count_local =>
  and_then (time_window now now (period * 60) count_local) (fun window =>
  and_then (item metric "MetricName") (fun metric_names =>
  Ok (mkPlan options (period * 60) count_local (fst window) (snd window)
        (metric_names_of metric_names))))))).

(** The requests among the entries of a call log, in order. *)
Definition metric_requests (evs : list Event) : list MetricRequest :=
  flat_map (fun ev => match ev with EvMetricCall _ req => [req] | _ => [] end) evs.

(** What a request takes from the metric and from the plan. *)
Definition request_from (metric : gmap string pyval) (period_local start_time end_time : Z)
    (req : MetricRequest) : Prop :=
  req_period req = period_local /\
  req_start_time req = start_time /\
  req_end_time req = end_time /\
  metric !! "Namespace" = Some (req_namespace req) /\
  metric !! "Statistics" = Some (req_statistics req) /\
  metric !! "Dimensions" = Some (req_dimensions req) /\
  req_unit req = metric !! "Unit".

(** An entry of the call log of the fetch of one request: an attempt of
    that request, or a wait. *)
Definition attempt_of (req : MetricRequest) (ev : Event) : Prop :=
  match ev with
  | EvMetricCall _ r => r = req
  | EvSleep _ _ => True
  | _ => False
  end.

(** The lengths of the waits in a call log, and the times at which the
    attempts of the metrics call began, in order. *)
Definition sleeps (evs : list Event) : list Z :=
  flat_map (fun ev => match ev with EvSleep _ ms => [ms] | _ => [] end) evs.

Definition attempts (evs : list Event) : list Z :=
  flat_map (fun ev => match ev with EvMetricCall t _ => [t] | _ => [] end) evs.

Definition is_metric_call (ev : Event) : bool :=
  match ev with
  | EvMetricCall _ _ => true
  | _ => false
  end.

Definition is_log_call (ev : Event) : bool :=
  match ev with
  | EvLogCall _ _ => true
  | _ => false
  end.

Definition returns {A} (r : pyresult A) : bool :=
  match r with
  | Ok _ => true
  | Raise _ => false
  end.

(** The exception with which an event of a log stream is refused before
    anything is written for it: the one the decoding of its message raised,
    [TypeError] for a message that is not a mapping, [KeyError] for a
    mapping without [instanceID]. *)
Definition refused_with (result : LogEvent) : option exn :=
  match message result with
  | Raise e => Some e
  | Ok (VDict msg) =>
      match dict_get msg "instanceID" with
      | Some _ => None
      | None => Some (KeyError (VStr "instanceID"))
      end
  | Ok _ => Some TypeError
  end.

End Notions.

(** ** Inputs the properties are tried on *)

Module Examples.
Import PyString Run Tables Logs Metrics Remote Driver OptionResolver Notions.

(** Python 2 on a platform with 64-bit integers. *)
Definition python27 : interpreter := Python2 9223372036854775807.

(** A load balancer's error count, asked for as an average and padded with
    zeros every minute; CloudWatch has no data for it. *)
Definition errors_metric : gmap string pyval :=
  <["Namespace" := VStr "AWS/ELB"]>
  (<["MetricName" := VStr "HTTPCode_Backend_5XX"]>
  (<["Dimensions" := VDict [("LoadBalancerName", VStr "web")]]>
  (<["Statistics" := VStr "Average"]> ∅))).

Definition errors_options : gmap string pyval :=
  <["NullIsZero" := VDict [("HTTPCode_Backend_5XX", VInt 1)]]> ∅.

Definition five_by_one : gmap string pyval :=
  <["Period" := VInt 1]> (<["Count" := VInt 5]> ∅).

Definition no_data : CloudWatch := mkCloudWatch (fun _ _ => (0%N, Success [])).

Definition no_streams : CloudWatchLogs :=
  mkCloudWatchLogs (fun _ _ => (0%N, Success [])) (fun _ _ => (0%N, Success [])).

(** A metric on one instance, and one point of its result set. *)
Definition cpu_metric : gmap string pyval :=
  <["Namespace" := VStr "AWS/EC2"]>
  (<["MetricName" := VStr "CPUUtilization"]>
  (<["Dimensions" := VDict [("InstanceId", VStr "i-123")]]>
  (<["Statistics" := VStr "Average"]> ∅))).

Definition cpu_point : ResultPoint :=
  mkPoint 60000000 [("Average", VFloat "1.5"); ("Unit", VStr "Percent")].


(** An event whose only category is list-shaped: the input/output of one
    disk device. *)
Definition disk_event (device : string) : LogEvent :=
  mkLogEvent 1000000
    (Ok (VDict [("instanceID", VStr "db1");
                ("diskIO", VList [VDict [("device", VStr device);
                                         ("util", VFloat "3.0")]])])).

(** An event whose only category is a flat mapping. *)
Definition cpu_event : LogEvent :=
  mkLogEvent 2000000
    (Ok (VDict [("instanceID", VStr "db1");
                ("cpuUtilization", VDict [("user", VFloat "12.5")])])).

(** An event whose message is not the text of a Python expression. *)
Definition garbled_event : LogEvent := mkLogEvent 3000000 (Raise SyntaxError).

(** Options whose formatter refers to [ListCategory]. *)
Definition sub_category_options : gmap string pyval :=
  <["Formatter" := VStr "%(Dimension)s.%(ListCategory)s.%(MetricName)s.%(Statistic)s"]>
  (<["ListFormatter" := VStr "%(Dimension)s.%(ListCategory)s.%(MetricName)s.%(Statistic)s"]>
   ∅).

Definition fresh : World := mkWorld 0 [] [].

(** Services with a transient fault: the first call of a run is refused with
    a 503 after 0.2 seconds, every later call is answered. *)
Definition flaky_metrics : CloudWatch :=
  mkCloudWatch (fun _ w =>
    if existsb is_metric_call (trace w)
    then (200000%N, Success [cpu_point])
    else (200000%N, Failure 503)).

Definition flaky_logs : CloudWatchLogs :=
  mkCloudWatchLogs
    (fun _ _ => (0%N, Success ["db1"]))
    (fun _ w =>
       if existsb is_log_call (trace w)
       then (200000%N, Success [cpu_event])
       else (200000%N, Failure 503)).

Definition cpu_request : MetricRequest :=
  mkMetricRequest 60 0 300000000 (VStr "CPUUtilization") (VStr "AWS/EC2")
    (VStr "Average") (VDict [("InstanceId", VStr "i-123")]) None.

Definition db1_request : LogRequest :=
  mkLogRequest false 50 0 300000 "db1" (VStr "RDSOSMetrics").

Definition default_policy : RetryPolicy := mkPolicy (Some 50) (Some 4000) 300000.

Definition monitoring_config : Config :=
  mkConfig None None (Some (<["LogGroup" := VStr "RDSOSMetrics"]> ∅)).

(** A metric with two names, and a service that takes 90 seconds to answer
    each request. *)
Definition two_names_metric : gmap string pyval :=
  <["Namespace" := VStr "AWS/EC2"]>
  (<["MetricName" := VList [VStr "A"; VStr "B"]]>
  (<["Dimensions" := VDict [("InstanceId", VStr "i-123")]]>
  (<["Statistics" := VStr "Average"]> ∅))).

Definition slow_metrics : CloudWatch :=
  mkCloudWatch (fun req _ =>
    (90000000%N,
     Success [mkPoint (req_start_time req)
                [("Average", VInt 1); ("Unit", VStr "Percent")]])).

Definition request_AB (name : string) : MetricRequest :=
  mkMetricRequest 60 999660500000 999960500000 (VStr name) (VStr "AWS/EC2")
    (VStr "Average") (VDict [("InstanceId", VStr "i-123")]) None.

(** A service that is down: it refuses every request after one second. *)
Definition down_metrics : CloudWatch :=
  mkCloudWatch (fun _ _ => (1000000%N, Failure 500)).

End Examples.

Import Notions Examples.

(** What is written to the standard output, and what is entered in the
    call log. *)
Abbreviation emits := (appends Run.stdout).
Abbreviation records := (appends Run.trace).

(** ** What the enhanced-monitoring pass settles before it reads a stream *)

Module LogNotions.
Import PyString Run Tables Logs Metrics Remote Driver OptionResolver.

Record LogPlan : Type := mkLogPlan {
  lp_options : gmap string pyval;
  lp_group : pyval;
  lp_period : Z;
  lp_count : Z;
  lp_start_time : Z;
  lp_end_time : Z
}.

Definition enhanced_plan (config_options : option (gmap string pyval))
    (cli_options enhanced_monitoring : gmap string pyval) (now : Z) : pyresult LogPlan :=
  let options := get_options config_options None (Some cli_options) in
  and_then (and_then (item options "Period") as_int) (fun period =>
  and_then (and_then (item options "Count") as_int) (fun count_local =>
  and_then (item enhanced_monitoring "LogGroup") (fun log_group =>
  let options :=
    match enhanced_monitoring !! "Formatter" with
    | Some f => <["Formatter" := f]> options
    | None => options
    end in
  and_then (match enhanced_monitoring !! "ListFormatter" with
            | Some f => Ok f
            | None => item options "Formatter"
            end) (fun list_formatter =>
  and_then (log_end_time_of now now (period * 60)) (fun end_time =>
  Ok (mkLogPlan (<["ListFormatter" := list_formatter]> options) log_group
        (period * 60) count_local
        (end_time - period * 60 * count_local * 1000) end_time)))))).

(** What the pass may enter in the call log: the listing of the streams,
    waits, and requests for log events with the window and the group of the
    plan, a limit of 50 and reading from the tail. *)
Definition log_event_of_plan (plan : LogPlan) (ev : Event) : Prop :=
  match ev with
  | EvLogCall _ req =>
      req = mkLogRequest false 50 (lp_start_time plan) (lp_end_time plan)
              (log_stream_name req) (lp_group plan)
  | EvStreams _ group => group = lp_group plan
  | EvSleep _ ms => ms = 500
  | EvMetricCall _ _ => False
  end.

End LogNotions.

Import LogNotions.

(** * Properties *)

(** ** Option resolution *)

Section OptionResolverFacts.
Import OptionResolver.

Lemma lookup_update d other k :
  update d other !! k =
  match other !! k with Some v => Some v | None => d !! k end.
Proof.
  unfold update. rewrite lookup_union.
  destruct (other !! k) as [v|] eqn:Ho; destruct (d !! k) as [w|] eqn:Hd; reflexivity.
Qed.

(** C6. For any, possibly absent, config-level, metric-level and command-line
    option maps, every key of the resolved options has the value of the
    highest-precedence tier that defines it, in the order command line, metric,
    config, [DEFAULT_OPTIONS]; an absent tier is skipped, and the value is
    taken whole from that tier (a shallow overwrite). *)
Theorem get_options_precedence
  (config_options local_options cli_options : option (gmap string pyval)) (k : string) :
  get_options config_options local_options cli_options !! k =
  first_defined [cli_options; local_options; config_options; Some DEFAULT_OPTIONS] k.
Proof.
  unfold get_options.
  destruct cli_options as [cli|], local_options as [loc|], config_options as [cfg|];
    cbn [first_defined tier_lookup];
    repeat rewrite lookup_update;
    repeat match goal with
           | |- context [match ?m !! k with _ => _ end] => destruct (m !! k)
           end; reflexivity.
Qed.

End OptionResolverFacts.

(** ** The unit table *)

Section TableFacts.
Import Tables.

Lemma dict_get_None_iff {V} (d : list (string * V)) k :
  dict_get d k = None <-> ~ In k (map fst d).
Proof.
  induction d as [|[k' v] d IH]; cbn.
  - tauto.
  - destruct (String.eqb_spec k' k) as [->|Hne].
    + split; [discriminate | intros H; exfalso; apply H; now left].
    + rewrite IH. split.
      * intros H [Heq|Hin]; [congruence | tauto].
      * intros H Hin. apply H. now right.
Qed.

(** C4, as the code has it.  [unit_type_map] is defined on the nine
    categories of the static table and on nothing else: for a category of the
    table the unit is the table entry of the pair when there is one and
    ['Count'] when the statistic is absent within the category (so
    cpuUtilization/user is Percent); for a category absent from the table the
    lookup raises [KeyError] instead of defaulting. *)
Theorem unit_type_map_known_categories (category statistic : string) :
  (In category known_categories ->
     exists units, dict_get unit_map category = Some units /\
       unit_type_map category statistic =
       Ok (match dict_get units statistic with Some u => u | None => "Count" end)) /\
  (~ In category known_categories ->
     unit_type_map category statistic = Raise (KeyError (VStr category))) /\
  unit_type_map "cpuUtilization" "user" = Ok "Percent" /\
  unit_type_map "cpuUtilization" statistic <> Raise (KeyError (VStr "cpuUtilization")).
Proof.
  assert (Hk : known_categories = map fst unit_map) by reflexivity.
  repeat split.
  - intros Hin. unfold unit_type_map, subscript.
    destruct (dict_get unit_map category) as [units|] eqn:Hget.
    + exists units. split; [reflexivity|]. now destruct (dict_get units statistic).
    + apply dict_get_None_iff in Hget. rewrite <- Hk in Hget. contradiction.
  - intros Hnot. unfold unit_type_map, subscript.
    rewrite Hk in Hnot. apply dict_get_None_iff in Hnot. now rewrite Hnot.
  - unfold unit_type_map, subscript. cbn [dict_get unit_map String.eqb Ascii.eqb Bool.eqb].
    match goal with
    | |- context [match ?x with Some _ => _ | None => _ end] => destruct x
    end; discriminate.
Qed.

(** C4, as the spec states it, fails: a category that is not in the table
    gets no unit at all. *)
Lemma unit_type_map_unknown_category_raises :
  ~ (forall category statistic,
       ~ In category known_categories ->
       unit_type_map category statistic = Ok "Count").
Proof.
  intros H. specialize (H "physicalDeviceIO" "util").
  assert (Hnot : ~ In "physicalDeviceIO" known_categories).
  { cbn. intros Hin. repeat destruct Hin as [Hin|Hin]; try discriminate; exact Hin. }
  specialize (H Hnot). vm_compute in H. discriminate.
Qed.

End TableFacts.

(** ** Dates and times *)

Section DateTimeFacts.
Import DateTime.

Lemma timedelta_seconds_Ok seconds delta :
  timedelta_seconds seconds = Ok delta -> delta = seconds * 1000000.
Proof.
  unfold timedelta_seconds. destruct (_ && _); [|discriminate].
  intros H. now inversion H.
Qed.

Lemma timedelta_seconds_within seconds :
  -86399999913600 <= seconds <= 86399999913600 ->
  timedelta_seconds seconds = Ok (seconds * 1000000).
Proof.
  intros [Hlo Hhi]. unfold timedelta_seconds.
  assert (H1 : -999999999 <= seconds / 86400) by (apply Z.div_le_lower_bound; lia).
  assert (H2 : seconds / 86400 <= 999999999) by (apply Z.div_le_upper_bound; lia).
  apply Z.leb_le in H1, H2. now rewrite H1, H2.
Qed.

Lemma datetime_sub_Ok t delta r :
  datetime_sub t delta = Ok r -> r = t - delta /\ datetime_min <= r <= datetime_max.
Proof.
  unfold datetime_sub, is_datetime.
  destruct (datetime_min <=? t - delta) eqn:H1; [|discriminate].
  destruct (t - delta <=? datetime_max) eqn:H2; [|discriminate].
  cbn. intros H. inversion H; subst. apply Z.leb_le in H1, H2. lia.
Qed.

Lemma datetime_sub_within t delta :
  datetime_min <= t - delta <= datetime_max -> datetime_sub t delta = Ok (t - delta).
Proof.
  intros [Hlo Hhi]. unfold datetime_sub, is_datetime.
  apply Z.leb_le in Hlo, Hhi. now rewrite Hlo, Hhi.
Qed.

Lemma datetime_add_Ok t delta r :
  datetime_add t delta = Ok r -> r = t + delta /\ datetime_min <= r <= datetime_max.
Proof.
  unfold datetime_add, is_datetime.
  destruct (datetime_min <=? t + delta) eqn:H1; [|discriminate].
  destruct (t + delta <=? datetime_max) eqn:H2; [|discriminate].
  cbn. intros H. inversion H; subst. apply Z.leb_le in H1, H2. lia.
Qed.

Lemma datetime_add_within t delta :
  datetime_min <= t + delta <= datetime_max -> datetime_add t delta = Ok (t + delta).
Proof.
  intros [Hlo Hhi]. unfold datetime_add, is_datetime.
  apply Z.leb_le in Hlo, Hhi. now rewrite Hlo, Hhi.
Qed.

Lemma datetime_add_beyond t delta :
  t + delta < datetime_min \/ datetime_max < t + delta ->
  datetime_add t delta = Raise OverflowError.
Proof.
  intros H. unfold datetime_add, is_datetime.
  destruct (datetime_min <=? t + delta) eqn:H1; [|reflexivity].
  destruct (t + delta <=? datetime_max) eqn:H2; [|reflexivity].
  apply Z.leb_le in H1, H2. lia.
Qed.

Lemma shave_whole t : shave t = t / 1000000 * 1000000.
Proof. unfold shave. pose proof (Z.div_mod t 1000000). lia. Qed.

Lemma shave_bounds t : t - 1000000 < shave t <= t.
Proof. unfold shave. pose proof (Z.mod_pos_bound t 1000000). lia. Qed.

Lemma shave_datetime_min t : datetime_min <= t -> datetime_min <= shave t.
Proof.
  intros Ht. rewrite shave_whole. unfold datetime_min in *.
  assert (-62135596800 <= t / 1000000) by (apply Z.div_le_lower_bound; lia). lia.
Qed.

End DateTimeFacts.

(** ** The time window of one metric *)

Section WindowFacts.
Import DateTime Driver.

Lemma time_window_Ok utcnow time_time period_local count_local start_time end_time :
  time_window utcnow time_time period_local count_local = Ok (start_time, end_time) ->
  period_local <> 0 /\
  end_time = utcnow - whole_seconds time_time mod period_local * 1000000 /\
  start_time = end_time - period_local * count_local * 1000000.
Proof.
  unfold time_window, end_time_of, start_time_of.
  destruct (Z.eqb_spec period_local 0) as [|Hperiod]; [discriminate|].
  destruct (timedelta_seconds _) as [delta|e] eqn:Hdelta; cbn [and_then]; [|discriminate].
  apply timedelta_seconds_Ok in Hdelta. subst delta.
  destruct (datetime_sub utcnow _) as [e1|e] eqn:Hend; cbn [and_then]; [|discriminate].
  apply datetime_sub_Ok in Hend as [-> _].
  destruct (timedelta_seconds _) as [delta|e] eqn:Hdelta; cbn [and_then]; [|discriminate].
  apply timedelta_seconds_Ok in Hdelta. subst delta.
  destruct (datetime_sub _ _) as [s1|e] eqn:Hstart; cbn [and_then]; [|discriminate].
  apply datetime_sub_Ok in Hstart as [-> _].
  intros H. inversion H; subst. now repeat split.
Qed.

(** C5, as the code has it.  The window is computed from two readings of the
    clock, [utcnow] for the end and [time_time] for the remainder that is
    taken off it.  When the window is computed, its end is [utcnow] less the
    whole seconds of [time_time] reduced modulo the period: the end keeps the
    sub-second component of [utcnow], and its whole second is a multiple of
    the period when the two readings fall in the same second; the start is
    the end less [period_local * count_local] seconds, and the two differ by
    exactly that much.  The window is computed whenever the clock is not
    before the epoch, the period is positive and the window does not reach
    back beyond the first year of [datetime]. *)
Theorem time_window_aligned (utcnow time_time period_local count_local : Z) :
  (forall start_time end_time,
     time_window utcnow time_time period_local count_local = Ok (start_time, end_time) ->
     end_time = utcnow - whole_seconds time_time mod period_local * 1000000 /\
     end_time mod 1000000 = utcnow mod 1000000 /\
     (utcnow / 1000000 = whole_seconds time_time ->
      (end_time / 1000000) mod period_local = 0) /\
     start_time = end_time - period_local * count_local * 1000000 /\
     end_time - start_time = period_local * count_local * 1000000) /\
  (0 <= utcnow <= datetime_max -> 0 < period_local -> 0 <= count_local ->
   period_local * (count_local + 1) <= 62135596800 ->
   exists start_time end_time,
     time_window utcnow time_time period_local count_local = Ok (start_time, end_time)).
Proof.
  split.
  - intros start_time end_time Hwindow.
    apply time_window_Ok in Hwindow as (Hperiod & -> & ->).
    set (r := whole_seconds time_time mod period_local).
    replace (utcnow - r * 1000000) with (utcnow + (- r) * 1000000) by lia.
    repeat split; try lia.
    + apply Z.mod_add. lia.
    + intros Hsame. rewrite Z.div_add by lia. rewrite Hsame. unfold r.
      replace (whole_seconds time_time + - (whole_seconds time_time mod period_local))
        with (whole_seconds time_time - whole_seconds time_time mod period_local) by lia.
      rewrite Zminus_mod_idemp_r, Z.sub_diag. now apply Z.mod_0_l.
  - intros Hnow Hperiod Hcount Hrange. unfold time_window, end_time_of, start_time_of.
    destruct (Z.eqb_spec period_local 0) as [|_]; [lia|].
    set (r := whole_seconds time_time mod period_local).
    assert (Hr : 0 <= r < period_local) by (apply Z.mod_pos_bound; lia).
    unfold datetime_max, datetime_min in *.
    assert (Hp : period_local <= 62135596800) by nia.
    rewrite timedelta_seconds_within by lia. cbn [and_then].
    rewrite datetime_sub_within by (unfold datetime_max, datetime_min; lia).
    cbn [and_then].
    rewrite timedelta_seconds_within by nia. cbn [and_then].
    rewrite datetime_sub_within by (unfold datetime_max, datetime_min; nia).
    cbn [and_then]. eauto.
Qed.

(** C5, as the spec states it, fails: with the clock read at 90.5 seconds
    and a period of 60 seconds the end of the window is 60.5 seconds, which
    is not [now - now mod period] (60 seconds) and has half a second left;
    and with the two readings on either side of the second 120 the whole
    second of the end, 119, is not a multiple of the period either. *)
Lemma time_window_keeps_microseconds :
  time_window 90500000 90500002 60 5 = Ok (-239500000, 60500000) /\
  60500000 <> 90500000 - 90500000 mod (60 * 1000000) /\
  60500000 mod 1000000 <> 0 /\
  time_window 119999999 120000001 60 5 = Ok (-180000001, 119999999) /\
  (119999999 / 1000000) mod 60 <> 0.
Proof. repeat split; vm_compute; discriminate. Qed.

End WindowFacts.

(** ** Gap filling *)

Section GapFillerFacts.
Import DateTime Metrics.

Lemma In_timestamps first step n t :
  In t (timestamps first step n) <->
  exists k : nat, (k < n)%nat /\ t = first + Z.of_nat k * step.
Proof.
  revert first. induction n as [|n IH]; intros first; cbn [timestamps In].
  - split; [tauto | intros (k & Hk & _); lia].
  - rewrite IH. split.
    + intros [<-|(k & Hk & ->)].
      * exists 0%nat. split; lia.
      * exists (S k). split; lia.
    + intros ([|k] & Hk & ->).
      * left. lia.
      * right. exists k. split; lia.
Qed.

Lemma has_timestamp_app results more t :
  has_timestamp (results ++ more) t = has_timestamp results t || has_timestamp more t.
Proof. apply existsb_app. Qed.

Lemma missing_after_padding results this value step n :
  0 < step ->
  missing (results ++ [padding this value]) (timestamps (this + step) step n) =
  missing results (timestamps (this + step) step n).
Proof.
  intros Hstep. unfold missing. apply filter_ext_in. intros t Hin.
  apply In_timestamps in Hin as (k & _ & ->).
  rewrite has_timestamp_app. cbn.
  replace (this =? this + step + Z.of_nat k * step) with false by (symmetry; apply Z.eqb_neq; nia).
  now rewrite !orb_false_r.
Qed.

(** One turn of the loop with a positive interval, away from the end of the
    range of [datetime]. *)
Lemma pad_loop_turn py fuel this_time end_time interval value results :
  0 < interval <= 1000000000 ->
  datetime_min <= this_time < end_time ->
  end_time + interval * 60 * 1000000 <= datetime_max ->
  pad_loop py (S fuel) this_time end_time interval value results =
  pad_loop py fuel (this_time + interval * 60 * 1000000) end_time interval value
    (if not_filter py results this_time then results ++ [padding this_time value]
     else results).
Proof.
  intros Hinterval Hthis Hend. cbn [pad_loop].
  assert (Hlt : (this_time <? end_time) = true) by (apply Z.ltb_lt; lia).
  rewrite Hlt, timedelta_seconds_within by lia. cbn [and_then].
  rewrite datetime_add_within by lia. reflexivity.
Qed.

Lemma pad_loop_run maxint (end_time interval : Z) (value : pyval) (n : nat) :
  0 < interval <= 1000000000 ->
  end_time + interval * 60 * 1000000 <= datetime_max ->
  forall (fuel : nat) (this_time : Z) (results : list ResultPoint),
    (n <= fuel)%nat ->
    datetime_min <= this_time ->
    (forall t, In t (timestamps this_time (interval * 60 * 1000000) n) -> t < end_time) ->
    end_time <= this_time + Z.of_nat n * (interval * 60 * 1000000) ->
    pad_loop (Python2 maxint) fuel this_time end_time interval value results =
    Ok (results ++
        map (fun t => padding t value)
          (missing results (timestamps this_time (interval * 60 * 1000000) n))).
Proof.
  intros Hinterval Hend. set (step := interval * 60 * 1000000).
  assert (Hstep : 0 < step) by (unfold step; lia).
  induction n as [|n IH]; intros fuel this_time results Hfuel Hmin Hbefore Hafter.
  - cbn [timestamps missing List.filter map]. rewrite app_nil_r.
    assert (Hdone : (this_time <? end_time) = false) by (apply Z.ltb_ge; lia).
    destruct fuel; cbn [pad_loop]; now rewrite Hdone.
  - destruct fuel as [|fuel]; [lia|].
    assert (Hlt : this_time < end_time).
    { apply Hbefore. cbn [timestamps]. now left. }
    rewrite pad_loop_turn by (fold step; lia). fold step.
    rewrite IH.
    + cbn [timestamps not_filter]. unfold missing at 2. cbn [List.filter].
      fold (missing results).
      destruct (has_timestamp results this_time); cbn [negb].
      * reflexivity.
      * rewrite (missing_after_padding results this_time value step n Hstep).
        cbn [map]. now rewrite <- app_assoc.
    + lia.
    + lia.
    + intros t Hin. apply Hbefore. cbn [timestamps]. now right.
    + lia.
Qed.

Lemma turns_enough first end_time step :
  0 < step ->
  (forall t, In t (timestamps first step (turns first end_time step)) -> t < end_time) /\
  end_time <= first + Z.of_nat (turns first end_time step) * step.
Proof.
  intros Hstep. unfold turns.
  set (q := (end_time - first + step - 1) / step).
  assert (Hq : step * q <= end_time - first + step - 1 < step * (q + 1)).
  { unfold q. split.
    - apply Z.mul_div_le. lia.
    - rewrite Z.mul_add_distr_l, Z.mul_1_r.
      pose proof (Z.mod_pos_bound (end_time - first + step - 1) step Hstep) as Hm.
      pose proof (Z.div_mod (end_time - first + step - 1) step) as Hdm. lia. }
  split.
  - intros t Hin. apply In_timestamps in Hin as (k & Hk & ->).
    assert (Z.of_nat k < q) by lia. nia.
  - destruct (Z.le_gt_cases 0 q) as [Hpos|Hneg].
    + rewrite Z2Nat.id by exact Hpos. nia.
    + replace (Z.to_nat q) with 0%nat by lia. nia.
Qed.

(** C3, as the code has it under Python 2, where [filter] gives a list.  For
    a positive interval and a window within the range of [datetime] the loop
    finishes (any fuel from some bound on gives the result), and the result is
    the input points, in order, followed by one synthesized point for every
    expected timestamp at which the input has no point, and nothing else.  A
    synthesized point is [{Timestamp: t, Sum: value, Unit: Count}]: the
    fill value is recorded under the fixed key [Sum], whatever statistic the
    metric asks for.  For an empty input, a start [T0], an end five minutes
    later and an interval of one minute the result is exactly the five points
    at [T0], [T0+1m], ..., [T0+4m] ([T0] without its microseconds), each with
    the fill value. *)
Theorem value_pad_results_fills (maxint : Z) (results : list ResultPoint)
    (start_time end_time interval : Z) (value : pyval)
    (Hwindow : walkable start_time end_time interval) :
  (exists fuel0 : nat, forall fuel : nat, (fuel0 <= fuel)%nat ->
     exists padded,
       value_pad_results (Python2 maxint) fuel results start_time end_time interval value =
       Ok padded /\
       (forall t, expected_timestamp start_time end_time interval t ->
                  has_timestamp results t = false ->
                  In (mkPoint t [("Sum", value); ("Unit", VStr "Count")]) padded) /\
       (exists synthesized, padded = results ++ synthesized /\
          forall p, In p synthesized ->
            exists t, expected_timestamp start_time end_time interval t /\
                      has_timestamp results t = false /\
                      p = mkPoint t [("Sum", value); ("Unit", VStr "Count")])) /\
  (start_time + 6 * 60 * 1000000 <= datetime_max ->
   forall fuel : nat, (5 <= fuel)%nat ->
     value_pad_results (Python2 maxint) fuel [] start_time
       (start_time + 5 * 60 * 1000000) 1 value =
     Ok (map (fun k => mkPoint (shave start_time + k * 60 * 1000000)
                         [("Sum", value); ("Unit", VStr "Count")])
           [0; 1; 2; 3; 4])).
Proof.
  destruct Hwindow as (Hinterval & Hmin & Hmax).
  split.
  - set (step := interval * 60 * 1000000).
    assert (Hstep : 0 < step) by (unfold step; lia).
    set (n := turns (shave start_time) (shave end_time) step).
    destruct (turns_enough (shave start_time) (shave end_time) step Hstep)
      as [Hbefore Hafter]. fold n in Hbefore, Hafter.
    assert (Hexp : forall t, expected_timestamp start_time end_time interval t <->
                             In t (timestamps (shave start_time) step n)).
    { intros t. rewrite In_timestamps. unfold expected_timestamp. fold step. split.
      - intros (k & -> & Hlt). exists k. split; [|reflexivity]. nia.
      - intros (k & Hk & ->). exists k. split; [reflexivity|].
        apply Hbefore, In_timestamps. eauto. }
    exists n. intros fuel Hfuel. eexists. split.
    + unfold value_pad_results.
      apply (pad_loop_run maxint (shave end_time) interval value n Hinterval);
        try assumption.
      * pose proof (shave_bounds end_time). lia.
      * now apply shave_datetime_min.
    + fold step. split.
      * intros t Ht Hno. apply in_or_app. right.
        apply (in_map (fun t => padding t value)). unfold missing.
        apply filter_In. split; [now apply Hexp | now rewrite Hno].
      * eexists. split; [reflexivity|].
        intros p Hp. apply in_map_iff in Hp as (t & <- & Ht).
        unfold missing in Ht. apply filter_In in Ht as [Hin Hno].
        exists t. repeat split; [now apply Hexp | now destruct (has_timestamp results t)].
  - intros Hsix fuel Hfuel. unfold value_pad_results.
    assert (Hshave : shave (start_time + 5 * 60 * 1000000) =
                     shave start_time + 5 * 60000000).
    { unfold shave.
      replace (start_time + 5 * 60 * 1000000) with (start_time + 300 * 1000000) by lia.
      rewrite Z.mod_add by lia. lia. }
    rewrite Hshave.
    pose proof (shave_bounds start_time) as Hshaved.
    rewrite (pad_loop_run maxint _ 1 value 5); try lia.
    + cbn [timestamps missing List.filter has_timestamp existsb negb map app].
      unfold padding. f_equal.
      repeat (apply (f_equal2 cons); [apply (f_equal2 mkPoint); [lia | reflexivity] |]).
      reflexivity.
    + now apply shave_datetime_min.
    + intros t Hin. apply In_timestamps in Hin as (k & Hk & ->). lia.
Qed.

Lemma value_pad_results_fills_witness :
  (exists fuel0 : nat, forall fuel : nat, (fuel0 <= fuel)%nat ->
     exists padded,
       value_pad_results python27 fuel
         [mkPoint 60000000 [("Sum", VInt 7); ("Unit", VStr "Count")]]
         500000 180000000 1 (VInt 0) = Ok padded /\
       (forall t, expected_timestamp 500000 180000000 1 t ->
                  has_timestamp [mkPoint 60000000 [("Sum", VInt 7); ("Unit", VStr "Count")]] t
                  = false ->
                  In (mkPoint t [("Sum", VInt 0); ("Unit", VStr "Count")]) padded) /\
       (exists synthesized,
          padded = [mkPoint 60000000 [("Sum", VInt 7); ("Unit", VStr "Count")]] ++ synthesized /\
          forall p, In p synthesized ->
            exists t, expected_timestamp 500000 180000000 1 t /\
                      has_timestamp
                        [mkPoint 60000000 [("Sum", VInt 7); ("Unit", VStr "Count")]] t = false /\
                      p = mkPoint t [("Sum", VInt 0); ("Unit", VStr "Count")])) /\
  (500000 + 6 * 60 * 1000000 <= datetime_max ->
   forall fuel : nat, (5 <= fuel)%nat ->
     value_pad_results python27 fuel [] 500000 (500000 + 5 * 60 * 1000000) 1 (VInt 0) =
     Ok (map (fun k => mkPoint (shave 500000 + k * 60 * 1000000)
                         [("Sum", VInt 0); ("Unit", VStr "Count")])
           [0; 1; 2; 3; 4])).
Proof.
  apply (value_pad_results_fills 9223372036854775807
           [mkPoint 60000000 [("Sum", VInt 7); ("Unit", VStr "Count")]]
           500000 180000000 1 (VInt 0)).
  unfold walkable, datetime_min, datetime_max. lia.
Defined.

End GapFillerFacts.

Section GapFillerInTheDriver.
Import Run Tables Metrics Remote Driver.

(** C3, as the spec states it, fails on the key: for a metric whose statistic
    is [Average] the synthesized points carry the fill value under [Sum] and
    have nothing under [Average], so that the run stops with a [KeyError] at
    the first of them and writes no line. *)
Lemma padding_is_recorded_under_Sum :
  exists padded,
    value_pad_results python27 5 [] 0 300000000 1 (VInt 0) = Ok padded /\
    length padded = 5%nat /\
    Forall (fun p => dict_get (fields p) "Average" = None /\
                     dict_get (fields p) "Sum" = Some (VInt 0)) padded /\
    leadbutt python27 10 no_data no_streams
      (mkConfig (Some errors_options) (Some [errors_metric]) None)
      five_by_one (mkKwargs (Some 50) (Some 4000)) (mkWorld 1000000500000 [] []) =
    (Raise (KeyError (VStr "Average")),
     mkWorld 1000000500000 []
       [EvMetricCall 1000000500000
          (mkMetricRequest 60 999660500000 999960500000
             (VStr "HTTPCode_Backend_5XX") (VStr "AWS/ELB") (VStr "Average")
             (VDict [("LoadBalancerName", VStr "web")]) None)]).
Proof.
  eexists. split; [vm_compute; reflexivity|].
  split; [reflexivity|].
  split; [repeat constructor|].
  vm_compute. reflexivity.
Qed.

End GapFillerInTheDriver.

(** ** What a computation appends to the output and to the call log *)

Section RunFacts.
Import Run.
Local Open Scope run_scope.

Section Appends.
Context {X : Type} (log : World -> list X).

Lemma appends_weaken {A} (P : X -> Prop) (Q Q' : A -> Prop) m :
  appends log P Q m -> (forall a, Q a -> Q' a) -> appends log P Q' m.
Proof.
  intros Hm Himp w. destruct (Hm w) as [Hout Hret]. split; [exact Hout|].
  intros a Ha. apply Himp, Hret, Ha.
Qed.

Lemma appends_nothing {A} (P : X -> Prop) (Q : A -> Prop) (m : M A) :
  (forall w, log (snd (m w)) = log w) ->
  (forall w a, fst (m w) = Ok a -> Q a) ->
  appends log P Q m.
Proof.
  intros Hsame Hret w. split.
  - exists []. rewrite app_nil_r. split; [apply Hsame | constructor].
  - apply Hret.
Qed.

Lemma appends_ret {A} (P : X -> Prop) (Q : A -> Prop) (a : A) :
  Q a -> appends log P Q (ret a).
Proof.
  intros Ha. apply appends_nothing; [reflexivity|].
  intros w b Hb. cbn in Hb. now inversion Hb; subst.
Qed.

Lemma appends_raise {A} (P : X -> Prop) (Q : A -> Prop) (e : exn) :
  appends log P Q (raise e).
Proof. apply appends_nothing; [reflexivity | intros w a Ha; discriminate Ha]. Qed.

Lemma appends_lift {A} (P : X -> Prop) (r : pyresult A) :
  appends log P (fun a => r = Ok a) (lift r).
Proof. apply appends_nothing; [reflexivity | intros w a Ha; exact Ha]. Qed.

Lemma appends_lift_any {A} (P : X -> Prop) (r : pyresult A) :
  appends log P (fun _ => True) (lift r).
Proof. apply appends_nothing; [reflexivity | trivial]. Qed.

Lemma appends_bind {A B} (P : X -> Prop) (Q : A -> Prop) (R : B -> Prop)
    (m : M A) (k : A -> M B) :
  appends log P Q m -> (forall a, Q a -> appends log P R (k a)) -> appends log P R (bind m k).
Proof.
  intros Hm Hk w. unfold bind.
  destruct (Hm w) as [(new1 & Hout1 & Hall1) Hret1].
  destruct (m w) as [[a|e] w1] eqn:Hmw; cbn [fst snd] in *.
  - destruct (Hk a (Hret1 a eq_refl) w1) as [(new2 & Hout2 & Hall2) Hret2].
    split; [|exact Hret2].
    exists (new1 ++ new2). rewrite Hout2, Hout1, app_assoc. split; [reflexivity|].
    apply Forall_app. now split.
  - split; [|intros b Hb; discriminate Hb].
    exists new1. now split.
Qed.


Lemma appends_for_each {A} (P : X -> Prop) (l : list A) (body : A -> M unit) :
  (forall x, In x l -> appends log P (fun _ => True) (body x)) ->
  appends log P (fun _ => True) (for_each l body).
Proof.
  induction l as [|x l IH]; intros Hbody; cbn [for_each].
  - now apply appends_ret.
  - apply appends_bind with (Q := fun _ => True).
    + apply Hbody. now left.
    + intros _ _. apply IH. intros y Hy. apply Hbody. now right.
Qed.

(** A loop that hands a dictionary from one turn to the next keeps an
    invariant [I] of the dictionary. *)
Lemma appends_fold_each {A S} (P : X -> Prop) (I : S -> Prop)
    (l : list A) (body : S -> A -> M S) :
  (forall s x, I s -> appends log P I (body s x)) ->
  forall s, I s -> appends log P I (fold_each l body s).
Proof.
  intros Hbody. induction l as [|x l IH]; intros s Hs; cbn [fold_each].
  - now apply appends_ret.
  - apply appends_bind with (Q := I).
    + now apply Hbody.
    + intros s' Hs'. now apply IH.
Qed.

End Appends.

Lemma emits_write (P : OutputLine -> Prop) (Q : unit -> Prop) line :
  P line -> Q tt -> emits P Q (write line).
Proof.
  intros Hline Hq w. cbn. split.
  - exists [line]. split; [reflexivity | now constructor].
  - intros [] _. exact Hq.
Qed.


Lemma records_write (P : Event -> Prop) line : records P (fun _ => True) (write line).
Proof. apply appends_nothing; [reflexivity | trivial]. Qed.

End RunFacts.


(** ** The metric line formatter *)

Section FormatterFacts.
Import PyString Run Tables Metrics.
Local Open Scope run_scope.

Lemma has_dimension_kept d : kept_by_line_keys (has_dimension d).
Proof.
  intros context statistic unit Hd. unfold has_dimension in *.
  now rewrite !lookup_insert_ne by discriminate.
Qed.

Lemma output_statistic_emits formatter result (I : gmap string pyval -> Prop)
    context statistic :
  kept_by_line_keys I -> I context ->
  emits (formatted_with formatter I) I
    (output_statistic formatter result context statistic).
Proof.
  intros Hkept Hd. unfold output_statistic.
  apply appends_bind with (Q := fun _ => True).
  { apply appends_lift_any. }
  intros unit _.
  assert (Hctx : I (<["Unit" := unit]> (<["statistic" := statistic]> context))).
  { now apply Hkept. }
  destruct formatter as [| | | |f| |]; try apply appends_raise.
  apply appends_bind with
    (Q := fun rendered =>
            format f (<["Unit" := unit]> (<["statistic" := statistic]> context)) = Ok rendered).
  { apply appends_lift. }
  intros rendered Hrendered.
  apply appends_bind with (Q := fun _ => True).
  { apply appends_lift_any. }
  intros value _.
  apply appends_bind with (Q := fun _ => True).
  - apply emits_write; [|trivial].
    exists f, (<["Unit" := unit]> (<["statistic" := statistic]> context)), rendered.
    repeat split; assumption.
  - intros _ _. now apply appends_ret.
Qed.

Lemma output_results_keeps results metric options (I : gmap string pyval -> Prop) :
  kept_by_line_keys I ->
  (forall context, initial_context metric = Ok context -> I context) ->
  forall formatter, item options "Formatter" = Ok formatter ->
  emits (formatted_with formatter I) (fun _ => True)
    (output_results results metric options).
Proof.
  intros Hkept Hinit formatter Hfmt. unfold output_results.
  apply appends_bind with (Q := fun f => f = formatter).
  { eapply appends_weaken; [apply appends_lift|]. intros f Hf. congruence. }
  intros f ->.
  apply appends_bind with (Q := I).
  { eapply appends_weaken; [apply appends_lift|]. exact Hinit. }
  intros context Hcontext.
  apply appends_bind with (Q := I).
  - apply appends_fold_each; [|exact Hcontext].
    intros c result Hc. unfold output_result.
    apply appends_bind with (Q := fun _ => True).
    { apply appends_lift_any. }
    intros statistics _.
    apply appends_fold_each; [|exact Hc].
    intros c' statistic Hc'. now apply output_statistic_emits.
  - intros _ _. now apply appends_ret.
Qed.

Lemma output_results_emits results metric options d :
  dimension_of metric = Ok d ->
  forall formatter, item options "Formatter" = Ok formatter ->
  emits (formatted_with formatter (has_dimension d)) (fun _ => True)
    (output_results results metric options).
Proof.
  intros Hdim. apply output_results_keeps; [apply has_dimension_kept|].
  intros c Hc. unfold initial_context in Hc. rewrite Hdim in Hc.
  inversion Hc; subst. unfold has_dimension. apply lookup_insert_eq.
Qed.

(** C8, as the code has it.  With a formatter among the options: when
    [Dimensions] is a mapping that is not empty, every line [output_results]
    writes is rendered in a context whose [dimension] is the first value of
    the mapping; when [Dimensions] is present and is not a mapping ([None],
    a string, a list, a number) the [dimension] is the empty string; when the
    [Dimensions] key is absent the call fails with [KeyError], and for an
    empty mapping with [IndexError], before anything is written. *)
Theorem output_results_dimension (results : list ResultPoint)
    (metric options : gmap string pyval) (formatter : pyval)
    (Hformatter : options !! "Formatter" = Some formatter) :
  (forall k first rest,
     metric !! "Dimensions" = Some (VDict ((k, first) :: rest)) ->
     initial_context metric = Ok (<["dimension" := first]> metric) /\
     forall w, exists new,
       stdout (snd (output_results results metric options w)) = stdout w ++ new /\
       Forall (formatted_with formatter (has_dimension first)) new) /\
  (forall other,
     metric !! "Dimensions" = Some other -> ~ is_mapping other ->
     initial_context metric = Ok (<["dimension" := VStr ""]> metric) /\
     forall w, exists new,
       stdout (snd (output_results results metric options w)) = stdout w ++ new /\
       Forall (formatted_with formatter (has_dimension (VStr ""))) new) /\
  (metric !! "Dimensions" = None ->
     forall w, output_results results metric options w = (Raise (KeyError (VStr "Dimensions")), w)) /\
  (metric !! "Dimensions" = Some (VDict []) ->
     forall w, output_results results metric options w = (Raise IndexError, w)).
Proof.
  assert (Hitem : item options "Formatter" = Ok formatter).
  { unfold item. now rewrite Hformatter. }
  split; [|split; [|split]].
  - intros k first rest Hdims.
    assert (Hdim : dimension_of metric = Ok first).
    { unfold dimension_of, item. now rewrite Hdims. }
    split.
    + unfold initial_context. now rewrite Hdim.
    + intros w. now apply (output_results_emits results metric options first).
  - intros other Hdims Hother.
    assert (Hdim : dimension_of metric = Ok (VStr "")).
    { unfold dimension_of, item. rewrite Hdims.
      destruct other; try reflexivity. exfalso. apply Hother. exact I. }
    split.
    + unfold initial_context. now rewrite Hdim.
    + intros w. now apply (output_results_emits results metric options (VStr "")).
  - intros Hnone w. unfold output_results, bind, lift.
    rewrite Hitem. unfold initial_context, dimension_of, item. now rewrite Hnone.
  - intros Hempty w. unfold output_results, bind, lift.
    rewrite Hitem. unfold initial_context, dimension_of, item. now rewrite Hempty.
Qed.

Lemma output_results_dimension_witness :
  (forall k first rest,
     cpu_metric !! "Dimensions" = Some (VDict ((k, first) :: rest)) ->
     initial_context cpu_metric = Ok (<["dimension" := first]> cpu_metric) /\
     forall w, exists new,
       stdout (snd (output_results [cpu_point] cpu_metric
                      OptionResolver.DEFAULT_OPTIONS w)) = stdout w ++ new /\
       Forall (formatted_with
                 (VStr "cloudwatch.%(Namespace)s.%(dimension)s.%(MetricName)s.%(statistic)s.%(Unit)s")
                 (has_dimension first)) new) /\
  (forall other,
     cpu_metric !! "Dimensions" = Some other -> ~ is_mapping other ->
     initial_context cpu_metric = Ok (<["dimension" := VStr ""]> cpu_metric) /\
     forall w, exists new,
       stdout (snd (output_results [cpu_point] cpu_metric
                      OptionResolver.DEFAULT_OPTIONS w)) = stdout w ++ new /\
       Forall (formatted_with
                 (VStr "cloudwatch.%(Namespace)s.%(dimension)s.%(MetricName)s.%(statistic)s.%(Unit)s")
                 (has_dimension (VStr ""))) new) /\
  (cpu_metric !! "Dimensions" = None ->
     forall w, output_results [cpu_point] cpu_metric OptionResolver.DEFAULT_OPTIONS w =
               (Raise (KeyError (VStr "Dimensions")), w)) /\
  (cpu_metric !! "Dimensions" = Some (VDict []) ->
     forall w, output_results [cpu_point] cpu_metric OptionResolver.DEFAULT_OPTIONS w =
               (Raise IndexError, w)).
Proof.
  apply (output_results_dimension [cpu_point] cpu_metric OptionResolver.DEFAULT_OPTIONS
           (VStr "cloudwatch.%(Namespace)s.%(dimension)s.%(MetricName)s.%(statistic)s.%(Unit)s")).
  vm_compute. reflexivity.
Defined.

(** The line of the metric of one instance carries the value of its only
    dimension. *)
Example output_results_cpu :
  output_results [cpu_point] cpu_metric OptionResolver.DEFAULT_OPTIONS (mkWorld 0 [] []) =
  (Ok tt,
   mkWorld 0
     [mkLine "cloudwatch.aws.ec2.i-123.cpuutilization.average.percent" (VFloat "1.5") (PInt 60)]
     []).
Proof. vm_compute. reflexivity. Qed.

(** C8, as the spec states it, fails: for a metric that has no [Dimensions]
    key the call raises [KeyError] and writes nothing, where the claim has
    the dimension be the empty string. *)
Lemma output_results_without_Dimensions_raises :
  cpu_metric !! "Dimensions" <> None /\
  delete "Dimensions" cpu_metric !! "Dimensions" = None /\
  output_results [cpu_point] (delete "Dimensions" cpu_metric)
    OptionResolver.DEFAULT_OPTIONS (mkWorld 0 [] []) =
  (Raise (KeyError (VStr "Dimensions")), mkWorld 0 [] []).
Proof. repeat split; vm_compute; congruence. Qed.

End FormatterFacts.

(** ** What [output_results] writes *)

Section MetricLineFacts.
Import PyString Run Tables DateTime Metrics.
Local Open Scope run_scope.

Lemma wrote_nothing w : wrote w [] = w.
Proof. destruct w. unfold wrote. cbn. now rewrite app_nil_r. Qed.

Lemma wrote_more w lines more : wrote (wrote w lines) more = wrote w (lines ++ more).
Proof. unfold wrote. cbn. now rewrite app_assoc. Qed.

Lemma written_app lines more :
  written (lines ++ more) =
  match written lines with
  | (first, Ok _) => (first ++ fst (written more), snd (written more))
  | (first, Raise e) => (first, Raise e)
  end.
Proof.
  induction lines as [|[line|e] lines IH]; cbn [app written].
  - now destruct (written more).
  - rewrite IH. destruct (written lines) as [first [[]|e]]; reflexivity.
  - reflexivity.
Qed.

Lemma same_but_line_keys_refl context : same_but_line_keys context context.
Proof. intros unit statistic. reflexivity. Qed.

Lemma same_but_line_keys_step context0 context unit statistic :
  same_but_line_keys context0 context ->
  same_but_line_keys context0 (<["Unit" := unit]> (<["statistic" := statistic]> context)).
Proof.
  intros Hsame u s. apply map_eq. intros k.
  pose proof (f_equal (fun m : gmap string pyval => m !! k) (Hsame u s)) as Hk.
  cbn beta in Hk.
  destruct (decide ("Unit" = k)) as [<-|HU].
  - now rewrite !lookup_insert_eq.
  - rewrite !(lookup_insert_ne _ "Unit") in * by exact HU.
    destruct (decide ("statistic" = k)) as [<-|HS].
    + now rewrite !lookup_insert_eq.
    + rewrite !(lookup_insert_ne _ "statistic") in * by exact HS.
      rewrite !(lookup_insert_ne _ "Unit") by exact HU.
      rewrite !(lookup_insert_ne _ "statistic") by exact HS.
      exact Hk.
Qed.

(** One turn of the inner loop writes the line of its result and statistic
    in the context the loop started with. *)
Lemma output_statistic_writes formatter result context0 context statistic w :
  same_but_line_keys context0 context ->
  match metric_line formatter context0 result statistic with
  | Ok line =>
      exists context',
        output_statistic formatter result context statistic w =
        (Ok context', wrote w [line]) /\
        same_but_line_keys context0 context'
  | Raise e => output_statistic formatter result context statistic w = (Raise e, w)
  end.
Proof.
  intros Hsame. unfold metric_line, output_statistic, bind, lift, write, ret, raise.
  destruct (subscript (fields result) "Unit") as [unit|e]; cbn [and_then]; [|reflexivity].
  destruct formatter as [| | | |f| |]; try reflexivity.
  rewrite (Hsame unit statistic).
  destruct (format f _) as [rendered|e]; cbn [and_then]; [|reflexivity].
  destruct (point_item result statistic) as [value|e]; cbn [and_then]; [|reflexivity].
  eexists. split; [reflexivity|]. now apply same_but_line_keys_step.
Qed.

Lemma output_statistics_write formatter result context0 statistics :
  forall context w, same_but_line_keys context0 context ->
    let lines := written (map (metric_line formatter context0 result) statistics) in
    let out := fold_each statistics (output_statistic formatter result) context w in
    snd out = wrote w (fst lines) /\
    match snd lines with
    | Ok _ => exists context', fst out = Ok context' /\ same_but_line_keys context0 context'
    | Raise e => fst out = Raise e
    end.
Proof.
  induction statistics as [|statistic statistics IH]; intros context w Hsame;
    cbn [map written fold_each].
  - cbn. rewrite wrote_nothing. split; [reflexivity|]. now exists context.
  - pose proof (output_statistic_writes formatter result context0 context statistic w Hsame)
      as Hone.
    unfold bind.
    destruct (metric_line formatter context0 result statistic) as [line|e].
    + destruct Hone as (context' & -> & Hsame').
      destruct (IH context' (wrote w [line]) Hsame') as [Hworld Hout].
      cbn zeta in *.
      destruct (written (map _ statistics)) as [more outcome]. cbn [fst snd] in *.
      split; [now rewrite Hworld, wrote_more | exact Hout].
    + rewrite Hone. cbn. now rewrite wrote_nothing.
Qed.

Lemma output_result_writes formatter metric context0 result context w :
  same_but_line_keys context0 context ->
  let lines := written (result_lines formatter metric context0 result) in
  let out := output_result formatter metric context result w in
  snd out = wrote w (fst lines) /\
  match snd lines with
  | Ok _ => exists context', fst out = Ok context' /\ same_but_line_keys context0 context'
  | Raise e => fst out = Raise e
  end.
Proof.
  intros Hsame. unfold output_result, result_lines, bind, lift.
  destruct (item metric "Statistics") as [statistics|e].
  - now apply output_statistics_write.
  - cbn. now rewrite wrote_nothing.
Qed.

Lemma output_results_loop_writes formatter metric context0 results :
  forall context w, same_but_line_keys context0 context ->
    let lines := written (metric_lines formatter metric context0 results) in
    let out := fold_each results (output_result formatter metric) context w in
    snd out = wrote w (fst lines) /\
    match snd lines with
    | Ok _ => exists context', fst out = Ok context'
    | Raise e => fst out = Raise e
    end.
Proof.
  induction results as [|result results IH]; intros context w Hsame;
    cbn [metric_lines flat_map written fold_each].
  - cbn. rewrite wrote_nothing. split; [reflexivity|]. now exists context.
  - fold (metric_lines formatter metric context0 results).
    rewrite written_app. unfold bind.
    destruct (output_result_writes formatter metric context0 result context w Hsame)
      as [Hworld Hout]. cbn zeta in *.
    destruct (output_result formatter metric context result w) as [r w1].
    cbn [fst snd] in *. subst w1.
    destruct (written (result_lines formatter metric context0 result)) as [first [[]|e]];
      cbn [fst snd] in *.
    + destruct Hout as (context' & -> & Hsame').
      destruct (IH context' (wrote w first) Hsame') as [Hworld' Hout']. cbn zeta in *.
      split; [now rewrite Hworld', wrote_more | exact Hout'].
    + subst r. now split.
Qed.

(** [output_results] writes the lines of its results and statistics, each
    in the context of the metric with its [dimension], up to the first that
    cannot be written, and ends with the exception of that one. *)
Lemma output_results_writes results metric options w :
  output_results results metric options w =
  (snd (output_of results metric options), wrote w (fst (output_of results metric options))).
Proof.
  unfold output_results, output_of, bind, lift.
  destruct (item options "Formatter") as [formatter|e]; [|cbn; now rewrite wrote_nothing].
  destruct (initial_context metric) as [context|e]; [|cbn; now rewrite wrote_nothing].
  destruct (output_results_loop_writes formatter metric context results context w
              (same_but_line_keys_refl context)) as [Hworld Hout]. cbn zeta in *.
  destruct (fold_each results _ context w) as [r w1]. cbn [fst snd] in *. subst w1.
  destruct (snd (written _)) as [[]|e].
  - destruct Hout as [context' ->]. reflexivity.
  - now subst r.
Qed.

(** The lines of a sequence of turns are those of the turns that returned. *)
Lemma In_written (lines : list (pyresult OutputLine)) line :
  In line (fst (written lines)) -> In (Ok line) lines.
Proof.
  induction lines as [|[first|e] lines IH]; cbn [written]; [cbn; tauto| |cbn; tauto].
  destruct (written lines) as [more outcome]. cbn [fst] in *.
  intros [<-|Hin]; [now left | right; now apply IH].
Qed.

Lemma written_all (lines : list (pyresult OutputLine)) :
  snd (written lines) = Ok tt -> map Ok (fst (written lines)) = lines.
Proof.
  induction lines as [|[first|e] lines IH]; cbn [written]; [reflexivity| |discriminate].
  destruct (written lines) as [more outcome]. cbn [fst snd] in *.
  intros H. cbn. now rewrite IH.
Qed.

Lemma In_metric_lines formatter metric context results line :
  In (Ok line) (metric_lines formatter metric context results) ->
  exists result statistics statistic,
    In result results /\ metric !! "Statistics" = Some statistics /\
    In statistic (stat_keys_of statistics) /\
    metric_line formatter context result statistic = Ok line.
Proof.
  unfold metric_lines. rewrite in_flat_map. intros (result & Hresult & Hin).
  unfold result_lines, item in Hin.
  destruct (metric !! "Statistics") as [statistics|]; [|destruct Hin as [H|[]]; discriminate].
  apply in_map_iff in Hin as (statistic & Hline & Hstat).
  now exists result, statistics, statistic.
Qed.

(** A line of a metric: its name is the sanitized rendering of the
    formatter in the context of the metric with the statistic and the unit
    of the result, its value the statistic of the result, its time the whole
    seconds of the timestamp of the result. *)
Lemma metric_line_Ok formatter context result statistic line :
  metric_line formatter context result statistic = Ok line ->
  exists unit,
    subscript (fields result) "Unit" = Ok unit /\
    name_in formatter (<["Unit" := unit]> (<["statistic" := statistic]> context))
      (line_name line) /\
    point_item result statistic = Ok (line_value line) /\
    line_time line = PInt (timegm (Timestamp result)).
Proof.
  unfold metric_line.
  destruct (subscript (fields result) "Unit") as [unit|e]; cbn [and_then]; [|discriminate].
  destruct formatter as [| | | |f| |]; try discriminate.
  destruct (format f _) as [rendered|e] eqn:Hformat; cbn [and_then]; [|discriminate].
  destruct (point_item result statistic) as [value|e]; cbn [and_then]; [|discriminate].
  intros H. inversion H; subst. cbn. exists unit. split; [reflexivity|].
  split; [now exists f, rendered | now split].
Qed.

End MetricLineFacts.

(** ** The metric-name segment of a line *)

Section NameFacts.
Import PyString Run Tables Logs Metrics Remote Driver.
Local Open Scope run_scope.

Ltac by_cases_on_char c :=
  destruct c as [[] [] [] [] [] [] [] []]; vm_compute; try reflexivity; try congruence.

Lemma lower_char_not_upper c : is_upper (lower_char c) = false.
Proof. by_cases_on_char c. Qed.

Lemma lower_char_not_slash c : Ascii.eqb c "/" = false -> Ascii.eqb (lower_char c) "/" = false.
Proof. by_cases_on_char c. Qed.


Lemma replaced_not_slash c :
  Ascii.eqb (if Ascii.eqb c "/" then "."%char else c) "/" = false.
Proof. by_cases_on_char c. Qed.


Lemma sanitize_no_slash rendered : no_slash (sanitize rendered) = true.
Proof.
  unfold no_slash, sanitize.
  induction rendered as [|c rest IH]; cbn [replace lower all_chars]; [reflexivity|].
  rewrite IH, lower_char_not_slash by apply replaced_not_slash. reflexivity.
Qed.

Lemma sanitize_no_upper rendered : no_upper (sanitize rendered) = true.
Proof.
  unfold no_upper, sanitize.
  induction rendered as [|c rest IH]; cbn [replace lower all_chars]; [reflexivity|].
  now rewrite IH, lower_char_not_upper.
Qed.


Lemma lower_fixes_no_upper s : no_upper s = true -> lower s = s.
Proof.
  unfold no_upper. induction s as [|c rest IH]; cbn [lower all_chars]; [reflexivity|].
  intros H. apply andb_prop in H as [Hc Hrest].
  rewrite IH by exact Hrest. unfold lower_char.
  now destruct (is_upper c).
Qed.

Lemma sanitized_sanitize rendered : sanitized (sanitize rendered).
Proof.
  unfold sanitized.
  split; [apply sanitize_no_slash|].
  split; [apply sanitize_no_upper|].
  apply lower_fixes_no_upper, sanitize_no_upper.
Qed.


Lemma formatted_with_sanitized formatter I line :
  formatted_with formatter I line -> sanitized (line_name line).
Proof.
  intros (f & context & rendered & _ & _ & _ & ->). apply sanitized_sanitize.
Qed.

(** The line of [output_log_results] is named in the context it is given. *)
Lemma output_log_results_emits formatter ingestion_time context value :
  emits (fun line => name_in formatter context (line_name line) /\
                     line_value line = value /\ line_time line = ingestion_time)
    (fun _ => True)
    (output_log_results formatter ingestion_time context value).
Proof.
  unfold output_log_results.
  destruct formatter as [| | | |f| |]; try apply appends_raise.
  apply appends_bind with (Q := fun rendered => format f context = Ok rendered).
  { apply appends_lift. }
  intros rendered Hrendered. apply emits_write; [|trivial].
  cbn. split; [now exists f, rendered | now split].
Qed.



















End NameFacts.

(** ** The shared context of [process_log_results] *)

Section SharedContextFacts.
Import PyString Run Tables Logs.
Local Open Scope run_scope.

Lemma fold_each_app {A S} (l1 l2 : list A) (body : S -> A -> M S) (s : S) (w : World) :
  fold_each (l1 ++ l2) body s w = bind (fold_each l1 body s) (fold_each l2 body) w.
Proof.
  revert s w. induction l1 as [|x l1 IH]; intros s w; cbn [app fold_each].
  - reflexivity.
  - unfold bind in *.
    destruct (body s x w) as [[s'|e] w']; [apply IH | reflexivity].
Qed.

(** C10.  The events of a stream are formatted through one context, created
    before the loop: the context in which a later event is processed is the
    one the earlier events left behind, with the keys they set.  So the lines
    written for an event are not a function of the event and the options
    alone: the same event, under the same options, gives a line with the
    sub-category [xvda] after one event and with [xvdb] after another (a
    stale [ListCategory] in both), and raises [KeyError] when no list-shaped
    element came before it.  This is so under either interpreter. *)
Theorem process_log_results_shares_context (py : interpreter) :
  (forall options earlier later context w,
     process_events py options (earlier ++ later) context w =
     bind (process_events py options earlier context) (process_events py options later) w) /\
  (exists context,
     fst (process_events py sub_category_options [disk_event "xvda"] ∅ fresh) = Ok context /\
     context !! "ListCategory" = Some (VStr "xvda") /\
     context !! "Statistic" = Some (VStr "util") /\
     context !! "Unit" = Some (VStr "Percent") /\
     context !! "MetricName" = Some (VStr "diskIO")) /\
  process_log_results py ([disk_event "xvda"] ++ [cpu_event]) sub_category_options fresh =
    (Ok tt, mkWorld 0 [mkLine "db1.xvda.diskio.util" (VFloat "3.0") (divide py 1000000 1000);
                       mkLine "db1.xvda.cpuutilization.user" (VFloat "12.5")
                         (divide py 2000000 1000)] []) /\
  process_log_results py ([disk_event "xvdb"] ++ [cpu_event]) sub_category_options fresh =
    (Ok tt, mkWorld 0 [mkLine "db1.xvdb.diskio.util" (VFloat "3.0") (divide py 1000000 1000);
                       mkLine "db1.xvdb.cpuutilization.user" (VFloat "12.5")
                         (divide py 2000000 1000)] []) /\
  process_log_results py [cpu_event] sub_category_options fresh =
    (Raise (KeyError (VStr "ListCategory")), fresh) /\
  ~ (exists lines_of : gmap string pyval -> LogEvent -> list OutputLine,
       forall options earlier event,
         stdout (snd (process_log_results py (earlier ++ [event]) options fresh)) =
         stdout (snd (process_log_results py earlier options fresh)) ++ lines_of options event).
Proof.
  split; [|split; [|split; [|split; [|split]]]].
  - intros options earlier later context w. apply fold_each_app.
  - destruct (fst (process_events py sub_category_options [disk_event "xvda"] ∅ fresh))
      as [context|e] eqn:Hrun.
    + exists context. split; [reflexivity|].
      assert (Hkey : forall k,
                context !! k =
                match fst (process_events py sub_category_options [disk_event "xvda"] ∅ fresh)
                with
                | Ok c => c !! k
                | Raise _ => None
                end) by (intros k; now rewrite Hrun).
      rewrite !Hkey. destruct py; repeat split; vm_compute; reflexivity.
    + assert (Hreturns : returns (fst (process_events py sub_category_options
                                         [disk_event "xvda"] ∅ fresh)) = true)
        by (destruct py; vm_compute; reflexivity).
      rewrite Hrun in Hreturns. discriminate Hreturns.
  - destruct py; vm_compute; reflexivity.
  - destruct py; vm_compute; reflexivity.
  - destruct py; vm_compute; reflexivity.
  - intros (lines_of & Hfun).
    pose proof (Hfun sub_category_options [disk_event "xvda"] cpu_event) as Ha.
    pose proof (Hfun sub_category_options [disk_event "xvdb"] cpu_event) as Hb.
    destruct py; vm_compute in Ha, Hb;
      injection Ha as Ha; injection Hb as Hb;
      rewrite <- Ha in Hb; discriminate Hb.
Qed.

End SharedContextFacts.

(** ** The two remote fetches *)

Section RetryWrapperFacts.
Import PyString Run Tables Logs Metrics Remote Driver.
Local Open Scope run_scope.

(** C1 fails on the code: [get_logs_statistics] is the bare remote call, it
    carries no retry wrapper.  On a transient fault the metrics fetch waits 50
    milliseconds, calls again and returns the points; the log fetch, on the
    same fault, raises after its only call, where the same wrapper would have
    returned the events; a run with enhanced monitoring stops there. *)
Theorem get_logs_statistics_is_not_retried :
  (forall fuel policy connection req,
     get_metric_statistics fuel policy connection req =
     retry fuel policy (call_metric_statistics connection req)) /\
  (forall connection req,
     get_logs_statistics connection req = call_log_events connection req) /\
  retry_policy five_by_one (mkKwargs (Some 50) (Some 4000)) = Ok default_policy /\
  get_metric_statistics 10 default_policy flaky_metrics cpu_request fresh =
    (Ok [cpu_point],
     mkWorld 450000 []
       [EvMetricCall 0 cpu_request; EvSleep 200000 50; EvMetricCall 250000 cpu_request]) /\
  get_logs_statistics flaky_logs db1_request fresh =
    (Raise (RemoteError 503), mkWorld 200000 [] [EvLogCall 0 db1_request]) /\
  retry 10 default_policy (call_log_events flaky_logs db1_request) fresh =
    (Ok [cpu_event],
     mkWorld 450000 []
       [EvLogCall 0 db1_request; EvSleep 200000 50; EvLogCall 250000 db1_request]) /\
  (forall py,
     leadbutt py 10 flaky_metrics flaky_logs monitoring_config five_by_one
       (mkKwargs (Some 50) (Some 4000)) fresh =
     (Raise (RemoteError 503),
      mkWorld 200000 []
        [EvStreams 0 (VStr "RDSOSMetrics");
         EvLogCall 0 (mkLogRequest false 50 (-300000) 0 "db1" (VStr "RDSOSMetrics"))])).
Proof.
  split; [reflexivity|]. split; [reflexivity|].
  split; [vm_compute; reflexivity|]. split; [vm_compute; reflexivity|].
  split; [vm_compute; reflexivity|]. split; [vm_compute; reflexivity|].
  intros py. destruct py; vm_compute; reflexivity.
Qed.

End RetryWrapperFacts.

(** ** The retrying fetch *)

Section RetryFacts.
Import Run Tables Metrics Remote Driver.
Local Open Scope run_scope.




(** One attempt: the call is entered in the log with the time at which it
    began, the clock moves on by the time the service takes, and the call
    returns or raises. *)
Lemma call_metric_statistics_cases conn req w :
  exists latency,
    let w' := mkWorld (now w + Z.of_N latency) (stdout w)
                (trace w ++ [EvMetricCall (now w) req]) in
    (exists results,
       call_metric_statistics conn req w = (Ok results, w') /\
       snd (remote_metric_statistics conn req w) = Success results) \/
    (exists code, call_metric_statistics conn req w = (Raise (RemoteError code), w')).
Proof.
  unfold call_metric_statistics, remote_call.
  destruct (remote_metric_statistics conn req w) as [latency [results|code]]; cbn [fst snd];
    exists latency; [left; now exists results | right; now exists code].
Qed.

Section Loop.
Variables (policy : RetryPolicy) (conn : CloudWatch) (req : MetricRequest) (deadline : Z).

Let call : M (list ResultPoint) := call_metric_statistics conn req.

(** What the fetch of a request enters in the call log, whatever the service
    does: attempts of that request and waits; it writes nothing, and a result
    it returns is the answer of the service to the last of its attempts. *)
Lemma retry_loop_attempts (fuel : nat) :
  forall (k : nat) (w : World),
    let out := retry_loop fuel policy call deadline k w in
    exists new,
      trace (snd out) = trace w ++ new /\
      stdout (snd out) = stdout w /\
      Forall (attempt_of req) new /\
      (forall results, fst out = Ok results ->
         exists t w0, last new = Some (EvMetricCall t req) /\
                      snd (remote_metric_statistics conn req w0) = Success results).
Proof.
  induction fuel as [|fuel' IH]; intros k w; cbn zeta; cbn [retry_loop].
  - exists []. rewrite app_nil_r. cbn. repeat split; [constructor | discriminate].
  - destruct (call_metric_statistics_cases conn req w)
      as (latency & [(results & Hcall & Hanswer)|(code & Hcall)]);
      fold call in Hcall; rewrite Hcall; cbn zeta.
    + set (w1 := mkWorld _ _ _).
      destruct (deadline <? now w1); cbn [exhausted fst snd trace stdout].
      * exists [EvMetricCall (now w) req].
        repeat split; [now repeat constructor | discriminate].
      * exists [EvMetricCall (now w) req].
        repeat split; [now repeat constructor|].
        intros results' H. inversion H; subst results'. now exists (now w), w.
    + set (w1 := mkWorld _ _ _).
      destruct (deadline <? now w1); cbn [exhausted fst snd trace stdout].
      { exists [EvMetricCall (now w) req].
        repeat split; [now repeat constructor | discriminate]. }
      destruct (deadline <? _); cbn [exhausted fst snd trace stdout].
      { exists [EvMetricCall (now w) req].
        repeat split; [now repeat constructor | discriminate]. }
      unfold bind, wait_for. set (w2 := mkWorld _ _ _).
      destruct (IH (S k) w2) as (new & Htrace & Hstdout & Hall & Hresult). cbn zeta in *.
      exists (EvMetricCall (now w) req
                :: EvSleep (now w1) (Z.max 0 (wait_ms policy k)) :: new).
      split.
      { rewrite Htrace. subst w2 w1. cbn [trace]. now rewrite <- !app_assoc. }
      split; [now rewrite Hstdout|].
      split; [now repeat constructor|].
      intros results H. destruct (Hresult results H) as (t & w0 & Hlast & Hanswer).
      exists t, w0. split; [|exact Hanswer].
      cbn [last]. destruct new as [|ev new]; [discriminate Hlast | exact Hlast].
Qed.

Variable floor_wait : Z.
Hypothesis waits_positive : 0 < floor_wait.
Hypothesis waits_bounded : forall k, floor_wait <= wait_ms policy k.



End Loop.



(** Against a service that is down, with a deadline of twenty seconds: the
    waits are 50, 100, 200, ... milliseconds up to the cap of 4000, the last
    attempt starts after 18.35 seconds, and the fetcher gives up at the
    deadline, twenty seconds after the first attempt. *)
Example retrying_fetch_against_down_service :
  let out := get_metric_statistics 100 (mkPolicy (Some 50) (Some 4000) 20000)
               down_metrics cpu_request fresh in
  fst out = Raise RetryError /\
  now (snd out) = 20000000 /\
  sleeps (trace (snd out)) = [50; 100; 200; 400; 800; 1600; 3200; 4000] /\
  attempts (trace (snd out)) =
  [0; 1050000; 2150000; 3350000; 4750000; 6550000; 9150000; 13350000; 18350000].
Proof. vm_compute. repeat split; reflexivity. Qed.

End RetryFacts.

(** ** The names of one metric *)

Section MetricExpansionFacts.
Import PyString Run Tables DateTime Logs Metrics Remote Driver OptionResolver.
Local Open Scope run_scope.

Lemma metric_requests_app evs1 evs2 :
  metric_requests (evs1 ++ evs2) = metric_requests evs1 ++ metric_requests evs2.
Proof. apply flat_map_app. Qed.

(** The turn of one metric is its plan, made from one reading of the clock,
    followed by one fetch cycle per name, all with the window of the plan. *)
Lemma process_metric_plan py fuel policy conn kwargs config_options cli_options metric w :
  process_metric py fuel policy conn kwargs config_options cli_options metric w =
  match metric_plan config_options cli_options metric (now w) with
  | Ok plan =>
      for_each (plan_names plan)
        (fetch_cycle py fuel policy conn kwargs (plan_options plan) metric (metric !! "Unit")
           (plan_period plan) (plan_start_time plan) (plan_end_time plan)) w
  | Raise e => (Raise e, w)
  end.
Proof.
  unfold process_metric, metric_plan, bind, lift, clock.
  destruct (local_options_of metric) as [local_options|e]; cbn [and_then]; [|reflexivity].
  destruct (and_then (item _ "Period") as_int) as [period|e]; cbn [and_then]; [|reflexivity].
  destruct (and_then (item _ "Count") as_int) as [count_local|e]; cbn [and_then];
    [|reflexivity].
  destruct (time_window _ _ _ _) as [[start_time end_time]|e]; cbn [and_then];
    [|reflexivity].
  destruct (item metric "MetricName") as [metric_names|e]; cbn [and_then]; reflexivity.
Qed.

Lemma metric_plan_window config_options cli_options metric now plan :
  metric_plan config_options cli_options metric now = Ok plan ->
  time_window now now (plan_period plan) (plan_count plan) =
  Ok (plan_start_time plan, plan_end_time plan).
Proof.
  unfold metric_plan.
  destruct (local_options_of metric) as [local_options|e]; cbn [and_then]; [|discriminate].
  destruct (and_then (item _ "Period") as_int) as [period|e]; cbn [and_then]; [|discriminate].
  destruct (and_then (item _ "Count") as_int) as [count_local|e]; cbn [and_then];
    [|discriminate].
  destruct (time_window _ _ _ _) as [[start_time end_time]|e] eqn:Hwindow; cbn [and_then];
    [|discriminate].
  destruct (item metric "MetricName") as [metric_names|e]; cbn [and_then]; [|discriminate].
  intros H. inversion H; subst. exact Hwindow.
Qed.

Lemma request_of_Ok metric period_local start_time end_time name req :
  request_of metric (metric !! "Unit") period_local start_time end_time name = Ok req ->
  req_metric_name req = name /\
  request_from metric period_local start_time end_time req.
Proof.
  unfold request_of, item, request_from.
  destruct (metric !! "Namespace") as [namespace|]; cbn [and_then]; [|discriminate].
  destruct (metric !! "Statistics") as [statistics|]; cbn [and_then]; [|discriminate].
  destruct (metric !! "Dimensions") as [dimensions|]; cbn [and_then]; [|discriminate].
  intros H. inversion H; subst. cbn. repeat split.
Qed.

(** The fetch of a request enters attempts of that request and waits in the
    call log and writes nothing; its result is an answer of the service to
    that request. *)
Lemma get_metric_statistics_attempts fuel policy conn req w :
  let out := get_metric_statistics fuel policy conn req w in
  exists new,
    trace (snd out) = trace w ++ new /\
    stdout (snd out) = stdout w /\
    Forall (attempt_of req) new /\
    (forall results, fst out = Ok results ->
       exists w0, snd (remote_metric_statistics conn req w0) = Success results).
Proof.
  cbn zeta. unfold get_metric_statistics, retry.
  destruct (stop_max_delay policy <? 0).
  - exists []. rewrite app_nil_r. cbn. repeat split; [constructor | discriminate].
  - destruct (retry_loop_attempts policy conn req (now w + 1000 * stop_max_delay policy)
                fuel 0%nat w) as (new & Htrace & Hstdout & Hall & Hresult).
    cbn zeta in *. exists new. repeat split; try assumption.
    intros results H. destruct (Hresult results H) as (t & w0 & _ & Hanswer). now exists w0.
Qed.

Lemma attempts_are_requests req new :
  Forall (attempt_of req) new -> Forall (fun r => r = req) (metric_requests new).
Proof.
  induction 1 as [|ev new Hev _ IH]; [constructor|].
  unfold metric_requests in *. cbn [flat_map].
  destruct ev as [t r| | |]; cbn in Hev |- *; try exact IH; try contradiction.
  constructor; assumption.
Qed.

Lemma sleep_ms_world py ms w :
  stdout (snd (sleep_ms py ms w)) = stdout w /\
  exists new, trace (snd (sleep_ms py ms w)) = trace w ++ new /\ metric_requests new = [].
Proof.
  unfold sleep_ms. destruct (ms <? 0); cbn.
  - split; [reflexivity|]. exists []. now rewrite app_nil_r.
  - split; [reflexivity|]. now exists [EvSleep (now w) ms].
Qed.

(** One fetch cycle, step by step. *)
Lemma fetch_cycle_steps py fuel policy conn kwargs options metric unit_wanted period_local
    start_time end_time name w :
  fetch_cycle py fuel policy conn kwargs options metric unit_wanted period_local
    start_time end_time name w =
  match request_of metric unit_wanted period_local start_time end_time name with
  | Raise e => (Raise e, w)
  | Ok req =>
      match get_metric_statistics fuel policy conn req w with
      | (Raise e, w1) => (Raise e, w1)
      | (Ok results, w1) =>
          match pad_if_asked py fuel options name start_time end_time results with
          | Raise e => (Raise e, w1)
          | Ok padded =>
              let written := output_of padded (<["MetricName" := name]> metric) options in
              match snd written with
              | Raise e => (Raise e, wrote w1 (fst written))
              | Ok _ => sleep_ms py (default 0 (interval kwargs)) (wrote w1 (fst written))
              end
          end
      end
  end.
Proof.
  unfold fetch_cycle, bind, lift.
  destruct (request_of _ _ _ _ _ _) as [req|e]; [|reflexivity].
  destruct (get_metric_statistics fuel policy conn req w) as [[results|e] w1]; [|reflexivity].
  destruct (pad_if_asked _ _ _ _ _ _ _) as [padded|e]; [|reflexivity].
  rewrite output_results_writes. cbn zeta.
  now destruct (snd (output_of _ _ _)) as [[]|e].
Qed.

Lemma cycle_line_named py fuel options metric start_time end_time name results line :
  In line (cycle_lines py fuel options metric start_time end_time name results) ->
  exists padded formatter context result statistic,
    pad_if_asked py fuel options name start_time end_time results = Ok padded /\
    In result padded /\
    options !! "Formatter" = Some formatter /\
    context !! "MetricName" = Some name /\
    name_in formatter context (line_name line) /\
    point_item result statistic = Ok (line_value line) /\
    line_time line = PInt (timegm (Timestamp result)).
Proof.
  unfold cycle_lines.
  destruct (pad_if_asked _ _ _ _ _ _ _) as [padded|e]; [|intros []].
  unfold output_of, item.
  destruct (options !! "Formatter") as [formatter|]; [|intros []].
  unfold initial_context.
  destruct (dimension_of _) as [d|e]; [|intros []].
  intros Hin.
  apply In_written, In_metric_lines in Hin
    as (result & statistics & statistic & Hresult & _ & _ & Hline).
  apply metric_line_Ok in Hline as (unit & _ & Hname & Hvalue & Htime).
  eexists padded, formatter, _, result, statistic.
  repeat split; try eassumption; try reflexivity.
  rewrite !lookup_insert_ne by discriminate. apply lookup_insert_eq.
Qed.

(** C2, as the code has it.  The turn of one metric makes its plan from one
    reading of the clock when the turn begins and then runs one fetch cycle
    per name, in the order of the names, every cycle with the options, the
    period and the one window of the plan.  The cycle of a name asks only for
    that name, with the metric's own Namespace, Statistics, Dimensions and
    Unit and with the window of the plan; when its fetch returns results,
    which are an answer of the service to that request, the cycle writes the
    lines of these results and no others, and each of them is rendered with
    the formatter of the resolved options in a context whose [MetricName] is
    the name of the cycle, with the value and the time of one of the
    results; when its fetch raises, the cycle writes nothing. *)
Theorem names_of_one_metric_share_its_window
    (py : interpreter) (fuel : nat) (policy : RetryPolicy) (conn : CloudWatch)
    (kwargs : Kwargs) (config_options : option (gmap string pyval))
    (cli_options metric : gmap string pyval) (w : World) :
  let out := process_metric py fuel policy conn kwargs config_options cli_options metric w in
  match metric_plan config_options cli_options metric (now w) with
  | Raise e => out = (Raise e, w)
  | Ok plan =>
      let cycle :=
        fetch_cycle py fuel policy conn kwargs (plan_options plan) metric (metric !! "Unit")
          (plan_period plan) (plan_start_time plan) (plan_end_time plan) in
      let lines_of :=
        cycle_lines py fuel (plan_options plan) metric (plan_start_time plan)
          (plan_end_time plan) in
      out = for_each (plan_names plan) cycle w /\
      plan_end_time plan - plan_start_time plan =
        plan_period plan * plan_count plan * 1000000 /\
      forall (name : pyval) (w0 : World),
        (exists new,
           trace (snd (cycle name w0)) = trace w0 ++ new /\
           Forall (fun req =>
                     req_metric_name req = name /\
                     request_from metric (plan_period plan) (plan_start_time plan)
                       (plan_end_time plan) req)
             (metric_requests new)) /\
        match request_of metric (metric !! "Unit") (plan_period plan)
                (plan_start_time plan) (plan_end_time plan) name with
        | Raise e => cycle name w0 = (Raise e, w0)
        | Ok req =>
            match fst (get_metric_statistics fuel policy conn req w0) with
            | Raise e =>
                fst (cycle name w0) = Raise e /\ stdout (snd (cycle name w0)) = stdout w0
            | Ok results =>
                (exists w', snd (remote_metric_statistics conn req w') = Success results) /\
                stdout (snd (cycle name w0)) = stdout w0 ++ lines_of name results
            end
        end /\
        forall results line,
          In line (lines_of name results) ->
          exists padded formatter context result statistic,
            pad_if_asked py fuel (plan_options plan) name (plan_start_time plan)
              (plan_end_time plan) results = Ok padded /\
            In result padded /\
            plan_options plan !! "Formatter" = Some formatter /\
            context !! "MetricName" = Some name /\
            name_in formatter context (line_name line) /\
            point_item result statistic = Ok (line_value line) /\
            line_time line = PInt (timegm (Timestamp result))
  end.
Proof.
  cbn zeta. rewrite process_metric_plan.
  destruct (metric_plan _ _ _ _) as [plan|e] eqn:Hplan; [|reflexivity].
  split; [reflexivity|].
  split.
  { apply metric_plan_window, time_window_Ok in Hplan as (_ & _ & ->). lia. }
  intros name w0. rewrite fetch_cycle_steps.
  split; [|split; [|intros results line; apply cycle_line_named]].
  - destruct (request_of _ _ _ _ _ _) as [req|e] eqn:Hreq.
    2:{ exists []. rewrite app_nil_r. split; [reflexivity | constructor]. }
    apply request_of_Ok in Hreq as [Hname Hfrom].
    destruct (get_metric_statistics_attempts fuel policy conn req w0)
      as (new & Htrace & _ & Hall & _). cbn zeta in Htrace.
    apply attempts_are_requests in Hall.
    assert (Hmine : Forall (fun r => req_metric_name r = name /\
                                     request_from metric (plan_period plan)
                                       (plan_start_time plan) (plan_end_time plan) r)
                      (metric_requests new)).
    { eapply Forall_impl; [exact Hall|]. intros r ->. now split. }
    destruct (get_metric_statistics fuel policy conn req w0) as [[results|e] w1];
      cbn [snd] in Htrace; [|now exists new].
    destruct (pad_if_asked _ _ _ _ _ _ _) as [padded|e]; [|now exists new].
    cbn zeta. destruct (snd (output_of _ _ _)) as [[]|e].
    + destruct (sleep_ms_world py (default 0 (interval kwargs))
                  (wrote w1 (fst (output_of padded (<["MetricName" := name]> metric)
                                    (plan_options plan)))))
        as [_ (more & Hmore & Hnone)].
      exists (new ++ more). rewrite Hmore. cbn [wrote trace]. rewrite Htrace, app_assoc.
      split; [reflexivity|]. rewrite metric_requests_app, Hnone, app_nil_r. exact Hmine.
    + cbn [snd wrote trace]. now exists new.
  - destruct (request_of _ _ _ _ _ _) as [req|e] eqn:Hreq; [|reflexivity].
    destruct (get_metric_statistics_attempts fuel policy conn req w0)
      as (new & _ & Hstdout & _ & Hanswer). cbn zeta in Hstdout, Hanswer.
    destruct (get_metric_statistics fuel policy conn req w0) as [[results|e] w1];
      cbn [fst snd] in *; [|now split].
    split; [now apply Hanswer|].
    unfold cycle_lines.
    destruct (pad_if_asked _ _ _ _ _ _ _) as [padded|e];
      [|cbn [snd]; now rewrite Hstdout, app_nil_r].
    cbn zeta. destruct (snd (output_of _ _ _)) as [[]|e].
    + destruct (sleep_ms_world py (default 0 (interval kwargs))
                  (wrote w1 (fst (output_of padded (<["MetricName" := name]> metric)
                                    (plan_options plan)))))
        as [-> _].
      cbn [wrote stdout]. now rewrite Hstdout.
    + cbn [snd wrote stdout]. now rewrite Hstdout.
Qed.

(** C2, as the spec states it, fails on the window: the two fetches of a
    metric with the names A and B, 90 seconds apart, carry the same window,
    the one computed before the first of them; a window computed afresh when
    the second fetch starts would end two minutes later. *)
Lemma expanded_names_share_one_window :
  leadbutt python27 10 slow_metrics no_streams
    (mkConfig None (Some [two_names_metric]) None)
    five_by_one (mkKwargs (Some 50) (Some 4000)) (mkWorld 1000000500000 [] []) =
  (Ok tt,
   mkWorld 1000180600000
     [mkLine "cloudwatch.aws.ec2.i-123.a.average.percent" (VInt 1) (PInt 999660);
      mkLine "cloudwatch.aws.ec2.i-123.b.average.percent" (VInt 1) (PInt 999660)]
     [EvMetricCall 1000000500000 (request_AB "A");
      EvSleep 1000090500000 50;
      EvMetricCall 1000090550000 (request_AB "B");
      EvSleep 1000180550000 50]) /\
  req_start_time (request_AB "A") = req_start_time (request_AB "B") /\
  req_end_time (request_AB "A") = req_end_time (request_AB "B") /\
  time_window 1000090550000 1000090550000 60 5 = Ok (999780550000, 1000080550000) /\
  (req_start_time (request_AB "B"), req_end_time (request_AB "B")) <>
  (999780550000, 1000080550000).
Proof.
  split; [vm_compute; reflexivity|].
  split; [reflexivity|]. split; [reflexivity|].
  split; [vm_compute; reflexivity|].
  intros H. vm_compute in H. inversion H.
Qed.

End MetricExpansionFacts.

(** * Further properties of the pipeline *)

(** ** Names, options and tables *)

Section MoreLeafFacts.
Import PyString Run Tables DateTime Logs Metrics Remote Driver OptionResolver.

Lemma replace_without_slash s : no_slash s = true -> replace "/" "." s = s.
Proof.
  unfold no_slash. induction s as [|c rest IH]; cbn [replace all_chars]; [reflexivity|].
  intros H. apply andb_prop in H as [Hc Hrest]. rewrite IH by exact Hrest.
  destruct (Ascii.eqb c "/"); [discriminate Hc | reflexivity].
Qed.

Lemma lower_keeps_no_slash s : no_slash s = true -> no_slash (lower s) = true.
Proof.
  unfold no_slash. induction s as [|c rest IH]; cbn [lower all_chars]; [reflexivity|].
  intros H. apply andb_prop in H as [Hc Hrest]. rewrite IH by exact Hrest.
  apply negb_true_iff in Hc. now rewrite (lower_char_not_slash c Hc).
Qed.

(** Sanitizing a name a second time changes nothing: a metric name that was
    written can be fed back as a template text and comes out the same. *)
Theorem sanitize_idempotent (rendered : string) :
  sanitize (sanitize rendered) = sanitize rendered.
Proof.
  unfold sanitize at 1.
  rewrite replace_without_slash by apply sanitize_no_slash.
  apply lower_fixes_no_upper, sanitize_no_upper.
Qed.

Lemma get_options_defines_defaults_helper
    (config_options local_options cli_options : option (gmap string pyval)) :
  exists f, get_options config_options local_options cli_options !! "Formatter" = Some f.
Proof.
  unfold get_options.
  destruct cli_options as [cli|], local_options as [loc|], config_options as [cfg|];
    repeat rewrite lookup_update;
    repeat match goal with
           | |- context [match ?m !! "Formatter" with _ => _ end] =>
               destruct (m !! "Formatter")
           end; eauto.
Qed.

(** Whatever the three tiers are, the resolved options define [Period],
    [Count] and [Formatter], so the driver's [options['Period']],
    [options['Count']] and [options['Formatter']] never raise [KeyError];
    and a key is defined in the result exactly when a tier or the defaults
    define it. *)
Theorem get_options_defines_defaults
    (config_options local_options cli_options : option (gmap string pyval)) :
  (forall k, In k ["Period"; "Count"; "Formatter"] ->
     exists v, item (get_options config_options local_options cli_options) k = Ok v) /\
  (forall k,
     is_Some (get_options config_options local_options cli_options !! k) <->
     is_Some (tier_lookup cli_options k) \/ is_Some (tier_lookup local_options k) \/
     is_Some (tier_lookup config_options k) \/ is_Some (DEFAULT_OPTIONS !! k)).
Proof.
  assert (Hkeys : forall k,
            is_Some (get_options config_options local_options cli_options !! k) <->
            is_Some (tier_lookup cli_options k) \/ is_Some (tier_lookup local_options k) \/
            is_Some (tier_lookup config_options k) \/ is_Some (DEFAULT_OPTIONS !! k)).
  { intros k. unfold get_options.
    destruct cli_options as [cli|], local_options as [loc|], config_options as [cfg|];
      cbn [tier_lookup]; repeat rewrite lookup_update;
      repeat match goal with
             | |- context [match ?m !! k with _ => _ end] => destruct (m !! k)
             end;
      destruct (DEFAULT_OPTIONS !! k);
      split; intros H; eauto 6;
      repeat (destruct H as [H|H]); try (now apply is_Some_None in H); eauto. }
  split; [|exact Hkeys].
  intros k Hk. unfold item.
  assert (Hsome : is_Some (get_options config_options local_options cli_options !! k)).
  { apply Hkeys. do 3 right.
    cbn in Hk. destruct Hk as [<-|[<-|[<-|[]]]]; vm_compute; eauto. }
  destruct Hsome as [v ->]. now exists v.
Qed.

Lemma process_statistic_lines py formatter_option options ingestion_time category
    (I : gmap string pyval -> Prop) context entry :
  (forall c statistic unit,
     I c -> I (<["Unit" := VStr unit]> (<["Statistic" := VStr statistic]> c))) ->
  (forall c statistic, I c -> I (<["Statistic" := VStr statistic]> c)) ->
  I context ->
  emits (fun line =>
           (exists formatter c,
              options !! formatter_option = Some formatter /\ I c /\
              name_in formatter c (line_name line)) /\
           is_number py (line_value line) = true /\
           line_time line = ingestion_time)
    I
    (process_statistic py formatter_option options ingestion_time category context entry).
Proof.
  intros Hkept Hkept' Hcontext. unfold process_statistic. destruct entry as [statistic value].
  destruct (is_number py value) eqn:Hnumber; [|apply appends_ret; now apply Hkept'].
  apply appends_bind with (Q := fun _ => True); [apply appends_lift_any | intros unit _].
  apply appends_bind with (Q := fun formatter => item options formatter_option = Ok formatter).
  { apply appends_lift. }
  intros formatter Hformatter.
  assert (Hnew : I (<["Unit" := VStr unit]> (<["Statistic" := VStr statistic]> context)))
    by now apply Hkept.
  apply appends_bind with (Q := fun _ => True); [|intros _ _; now apply appends_ret].
  intros w. destruct (output_log_results_emits formatter ingestion_time
                        (<["Unit" := VStr unit]> (<["Statistic" := VStr statistic]> context))
                        value w) as [(new & Hout & Hall) _].
  split; [|trivial]. exists new. split; [exact Hout|].
  eapply Forall_impl; [exact Hall|]. intros line (Hname & -> & ->).
  split; [|now split].
  exists formatter, (<["Unit" := VStr unit]> (<["Statistic" := VStr statistic]> context)).
  unfold item in Hformatter.
  destruct (options !! formatter_option) as [v|]; [|discriminate].
  inversion Hformatter; subst v. now repeat split.
Qed.

(** The sub-category of an element of a list-shaped category is the value
    of the key field of the category: [interface] for network, [device] for
    diskIO, [name] for fileSys and for processList; an element without that
    field raises [KeyError] with the name of the field, and for every other
    category the key is [None] and the look-up raises [KeyError].  Every
    line written for the element is rendered with the [ListFormatter] of the
    options in a context whose [ListCategory] is that value; when there is no
    such value the element raises before it writes. *)
Theorem log_list_map_key_field (statistic_dict : list (string * pyval)) :
  log_list_map "network" statistic_dict = subscript statistic_dict "interface" /\
  log_list_map "diskIO" statistic_dict = subscript statistic_dict "device" /\
  log_list_map "fileSys" statistic_dict = subscript statistic_dict "name" /\
  log_list_map "processList" statistic_dict = subscript statistic_dict "name" /\
  (forall field,
     subscript statistic_dict field =
     match dict_get statistic_dict field with
     | Some v => Ok v
     | None => Raise (KeyError (VStr field))
     end) /\
  (forall category, ~ In category list_categories ->
     log_list_map category statistic_dict = Raise (KeyError VNone)) /\
  (forall py options ingestion_time category context w,
     let out := process_list_element py options ingestion_time category context
                  (VDict statistic_dict) w in
     match log_list_map category statistic_dict with
     | Raise e => out = (Raise e, w)
     | Ok sub =>
         exists new,
           stdout (snd out) = stdout w ++ new /\
           Forall (fun line =>
                     exists formatter c,
                       options !! "ListFormatter" = Some formatter /\
                       c !! "ListCategory" = Some sub /\
                       name_in formatter c (line_name line)) new
     end).
Proof.
  split; [reflexivity|]. split; [reflexivity|]. split; [reflexivity|].
  split; [reflexivity|]. split; [reflexivity|].
  split.
  - intros category Hnot.
    assert (Hk : list_categories = map fst list_map) by reflexivity.
    rewrite Hk in Hnot. apply dict_get_None_iff in Hnot.
    unfold log_list_map. now rewrite Hnot.
  - intros py options ingestion_time category context w. cbn zeta.
    unfold process_list_element, bind, lift.
    destruct (log_list_map category statistic_dict) as [sub|e]; [|reflexivity].
    set (I := fun c : gmap string pyval => c !! "ListCategory" = Some sub).
    assert (Hemits : emits (fun line =>
                (exists formatter c,
                   options !! "ListFormatter" = Some formatter /\ I c /\
                   name_in formatter c (line_name line)) /\
                is_number py (line_value line) = true /\
                line_time line = ingestion_time) I
              (fold_each statistic_dict
                 (process_statistic py "ListFormatter" options ingestion_time category)
                 (<["ListCategory" := sub]> context))).
    { apply appends_fold_each.
      - intros c entry Hc. apply process_statistic_lines; [| |exact Hc].
        + intros c0 statistic unit H0. unfold I in *.
          now rewrite !lookup_insert_ne by discriminate.
        + intros c0 statistic H0. unfold I in *.
          now rewrite lookup_insert_ne by discriminate.
      - unfold I. apply lookup_insert_eq. }
    destruct (Hemits w) as [(new & Hout & Hall) _].
    exists new. split; [exact Hout|].
    eapply Forall_impl; [exact Hall|]. now intros line [Hline _].
Qed.

(** The end of the window of the enhanced-monitoring pass, which is
    computed from two readings of the clock: when it is computed it is a
    whole number of seconds, in milliseconds, whatever the sub-second part of
    the clock, and that second is a multiple of the period when the two
    readings fall in the same second.  It is computed whenever the period is
    positive and the clock is at least one period after the epoch. *)
Theorem log_end_time_on_period_boundary (now_local time_time period_local : Z) :
  (forall end_time,
     log_end_time_of now_local time_time period_local = Ok end_time ->
     end_time =
       (now_local / 1000000 - whole_seconds time_time mod period_local) * 1000 /\
     end_time mod 1000 = 0 /\
     (now_local / 1000000 = whole_seconds time_time ->
      (end_time / 1000) mod period_local = 0)) /\
  (0 < period_local -> period_local * 1000000 <= now_local <= datetime_max ->
   exists end_time, log_end_time_of now_local time_time period_local = Ok end_time).
Proof.
  unfold log_end_time_of. split.
  - intros end_time.
    destruct (Z.eqb_spec period_local 0) as [|Hperiod]; [discriminate|].
    set (r := whole_seconds time_time mod period_local).
    destruct (timedelta_seconds r) as [delta|e] eqn:Hdelta; cbn [and_then]; [|discriminate].
    apply timedelta_seconds_Ok in Hdelta. subst delta.
    destruct (datetime_sub now_local _) as [t|e] eqn:Ht; cbn [and_then]; [|discriminate].
    apply datetime_sub_Ok in Ht as [-> _].
    destruct (_ <? 0); [discriminate|].
    intros H. inversion H; subst end_time. clear H.
    replace (now_local - r * 1000000) with (now_local + (- r) * 1000000) by lia.
    rewrite Z.div_add by lia.
    split; [f_equal; lia|]. split; [apply Z.mod_mul; lia|].
    intros Hsame. rewrite Z.div_mul by lia. rewrite Hsame. unfold r.
    replace (whole_seconds time_time + - (whole_seconds time_time mod period_local))
      with (whole_seconds time_time - whole_seconds time_time mod period_local) by lia.
    rewrite Zminus_mod_idemp_r, Z.sub_diag. now apply Z.mod_0_l.
  - intros Hperiod Hnow.
    destruct (Z.eqb_spec period_local 0) as [|_]; [lia|].
    set (r := whole_seconds time_time mod period_local).
    assert (Hr : 0 <= r < period_local) by (apply Z.mod_pos_bound; lia).
    unfold datetime_max in Hnow.
    rewrite timedelta_seconds_within by lia. cbn [and_then].
    rewrite datetime_sub_within by (unfold datetime_max, datetime_min; lia).
    cbn [and_then].
    assert (Hpos : (now_local - r * 1000000 <? 0) = false) by (apply Z.ltb_ge; lia).
    rewrite Hpos. eauto.
Qed.

End MoreLeafFacts.

(** ** More on gap filling *)

Section MoreGapFillerFacts.
Import DateTime Metrics.

Lemma pad_loop_extends py end_time interval value :
  forall fuel this_time results padded,
    pad_loop py fuel this_time end_time interval value results = Ok padded ->
    exists synthesized, padded = results ++ synthesized.
Proof.
  induction fuel as [|fuel IH]; intros this_time results padded; cbn [pad_loop];
    destruct (this_time <? end_time);
    try discriminate;
    try (intros H; inversion H; subst; exists []; now rewrite app_nil_r).
  destruct (timedelta_seconds _) as [step|e]; cbn [and_then]; [|discriminate].
  destruct (datetime_add _ _) as [next|e]; cbn [and_then]; [|discriminate].
  intros Hrun. apply IH in Hrun as [synthesized ->].
  destruct (not_filter py results this_time).
  - exists ([padding this_time value] ++ synthesized). now rewrite app_assoc.
  - now exists synthesized.
Qed.

(** Whether the loop returns does not depend on the interpreter nor on the
    points. *)
Lemma pad_loop_returns py py' end_time interval value :
  forall fuel this_time results results' padded,
    pad_loop py fuel this_time end_time interval value results = Ok padded ->
    exists padded',
      pad_loop py' fuel this_time end_time interval value results' = Ok padded'.
Proof.
  induction fuel as [|fuel IH]; intros this_time results results' padded; cbn [pad_loop];
    destruct (this_time <? end_time); try discriminate; eauto.
  destruct (timedelta_seconds _) as [step|e]; cbn [and_then]; [|discriminate].
  destruct (datetime_add _ _) as [next|e]; cbn [and_then]; [|discriminate].
  intros Hrun. eapply IH. exact Hrun.
Qed.

(** A result set that has a point wherever the padded one has is left as it
    is. *)
Lemma pad_loop_again py end_time interval value :
  forall fuel this_time results padded,
    pad_loop py fuel this_time end_time interval value results = Ok padded ->
    forall full,
      (forall t, has_timestamp padded t = true -> has_timestamp full t = true) ->
      pad_loop py fuel this_time end_time interval value full = Ok full.
Proof.
  induction fuel as [|fuel IH]; intros this_time results padded; cbn [pad_loop];
    destruct (this_time <? end_time); try discriminate; try reflexivity.
  destruct (timedelta_seconds _) as [step|e]; cbn [and_then]; [|discriminate].
  destruct (datetime_add _ _) as [next|e]; cbn [and_then]; [|discriminate].
  intros Hrun full Hfull.
  assert (Hno : not_filter py full this_time = false).
  { destruct py as [maxint|]; [|reflexivity]. cbn [not_filter] in *.
    apply negb_false_iff, Hfull.
    apply pad_loop_extends in Hrun as Hext. destruct Hext as [synthesized ->].
    rewrite has_timestamp_app. apply orb_true_iff. left.
    destruct (has_timestamp results this_time) eqn:Hhas; cbn [negb]; [exact Hhas|].
    rewrite has_timestamp_app. cbn. now rewrite Z.eqb_refl, orb_true_r. }
  rewrite Hno. eapply IH; eassumption.
Qed.

Lemma value_pad_results_returns py results start_time end_time interval value :
  walkable start_time end_time interval ->
  exists fuel0 : nat, forall fuel : nat, (fuel0 <= fuel)%nat ->
    exists padded,
      value_pad_results py fuel results start_time end_time interval value = Ok padded.
Proof.
  intros (Hinterval & Hmin & Hmax).
  set (step := interval * 60 * 1000000).
  assert (Hstep : 0 < step) by (unfold step; lia).
  set (n := turns (shave start_time) (shave end_time) step).
  destruct (turns_enough (shave start_time) (shave end_time) step Hstep)
    as [Hbefore Hafter]. fold n in Hbefore, Hafter.
  exists n. intros fuel Hfuel. unfold value_pad_results.
  eapply (pad_loop_returns (Python2 0) py _ _ _ _ _ results results).
  apply (pad_loop_run 0 (shave end_time) interval value n Hinterval);
    try eassumption.
  - pose proof (shave_bounds end_time). lia.
  - now apply shave_datetime_min.
Qed.

(** Padding is idempotent under either interpreter: whenever
    [value_pad_results] returns, padding what it returned over the same
    window gives it back unchanged; and it returns for a positive interval
    and a window within the range of [datetime]. *)
Theorem value_pad_results_idempotent (py : interpreter) (results : list ResultPoint)
    (start_time end_time interval : Z) (value : pyval) :
  (forall fuel padded,
     value_pad_results py fuel results start_time end_time interval value = Ok padded ->
     value_pad_results py fuel padded start_time end_time interval value = Ok padded) /\
  (walkable start_time end_time interval ->
   exists fuel0 : nat, forall fuel : nat, (fuel0 <= fuel)%nat ->
     exists padded,
       value_pad_results py fuel results start_time end_time interval value = Ok padded /\
       value_pad_results py fuel padded start_time end_time interval value = Ok padded).
Proof.
  assert (Hagain : forall fuel padded,
            value_pad_results py fuel results start_time end_time interval value = Ok padded ->
            value_pad_results py fuel padded start_time end_time interval value = Ok padded).
  { unfold value_pad_results. intros fuel padded Hrun.
    eapply pad_loop_again; [exact Hrun | trivial]. }
  split; [exact Hagain|].
  intros Hwindow.
  destruct (value_pad_results_returns py results start_time end_time interval
              value Hwindow) as [fuel0 Hreturns].
  exists fuel0. intros fuel Hfuel. destruct (Hreturns fuel Hfuel) as [padded Hrun].
  exists padded. split; [exact Hrun | now apply Hagain].
Qed.

Lemma pad_loop_stuck py (end_time : Z) (value : pyval) :
  forall (fuel : nat) (this_time : Z) (results : list ResultPoint),
    datetime_min <= this_time <= datetime_max ->
    this_time < end_time ->
    pad_loop py fuel this_time end_time 0 value results = Raise OutOfFuel.
Proof.
  induction fuel as [|fuel IH]; intros this_time results Hrange Hlt;
    cbn [pad_loop]; apply Z.ltb_lt in Hlt as Hb; rewrite Hb; [reflexivity|].
  change (0 * 60) with 0. rewrite (timedelta_seconds_within 0) by lia.
  cbn [and_then]. change (0 * 1000000) with 0.
  rewrite datetime_add_within by lia. cbn [and_then].
  rewrite Z.add_0_r. now apply IH.
Qed.

Lemma pad_loop_overflows py (end_time interval : Z) (value : pyval) :
  interval < 0 ->
  forall (fuel : nat) (this_time : Z) (results : list ResultPoint),
    this_time < end_time ->
    (Z.to_nat ((this_time - datetime_min) / 60000000) < fuel)%nat ->
    pad_loop py fuel this_time end_time interval value results = Raise OverflowError.
Proof.
  intros Hinterval.
  induction fuel as [|fuel IH]; intros this_time results Hlt Hfuel; [lia|].
  cbn [pad_loop]. apply Z.ltb_lt in Hlt as Hb. rewrite Hb.
  destruct (timedelta_seconds (interval * 60)) as [step|e] eqn:Hstep; cbn [and_then].
  2:{ unfold timedelta_seconds in Hstep. destruct (_ && _); [discriminate|].
      now inversion Hstep. }
  apply timedelta_seconds_Ok in Hstep. subst step.
  destruct (datetime_add this_time _) as [next|e] eqn:Hnext; cbn [and_then].
  2:{ unfold datetime_add in Hnext. destruct (is_datetime _); [discriminate|].
      now inversion Hnext. }
  apply datetime_add_Ok in Hnext as [-> [Hmin _]].
  apply IH; [lia|].
  set (m := this_time - datetime_min) in *.
  assert (Hm : this_time + interval * 60 * 1000000 - datetime_min <= m + -1 * 60000000)
    by (unfold m; lia).
  assert (Hdiv : (m + -1 * 60000000) / 60000000 = m / 60000000 + -1)
    by (apply Z.div_add; lia).
  pose proof (Z.div_le_mono _ _ 60000000 ltac:(lia) Hm) as Hle. rewrite Hdiv in Hle.
  assert (0 <= (this_time + interval * 60 * 1000000 - datetime_min) / 60000000)
    by (apply Z.div_pos; lia).
  lia.
Qed.

(** [value_pad_results] needs a positive interval.  With an interval of zero
    and a window that is not empty the loop never ends: whatever fuel it is
    given is used up.  With a negative interval and such a window the loop
    walks back in time, one step a turn, until it leaves the range of
    [datetime] and raises [OverflowError] (any fuel from some bound on shows
    it; the memory the appended points take is not modelled).  With an empty
    window the input comes back unchanged, whatever the interval. *)
Theorem value_pad_results_needs_positive_interval (py : interpreter)
    (results : list ResultPoint) (start_time end_time interval : Z) (value : pyval) :
  (interval = 0 -> datetime_min <= start_time <= datetime_max ->
   shave start_time < shave end_time ->
   forall fuel, value_pad_results py fuel results start_time end_time interval value =
                Raise OutOfFuel) /\
  (interval < 0 -> shave start_time < shave end_time ->
   exists fuel0 : nat, forall fuel : nat, (fuel0 <= fuel)%nat ->
     value_pad_results py fuel results start_time end_time interval value =
     Raise OverflowError) /\
  (shave end_time <= shave start_time ->
   forall fuel, value_pad_results py fuel results start_time end_time interval value =
                Ok results).
Proof.
  split; [|split].
  - intros -> Hrange Hwindow fuel. unfold value_pad_results.
    apply pad_loop_stuck; [|exact Hwindow].
    pose proof (shave_bounds start_time). pose proof (shave_datetime_min start_time). lia.
  - intros Hinterval Hwindow.
    exists (S (Z.to_nat ((shave start_time - datetime_min) / 60000000))).
    intros fuel Hfuel. unfold value_pad_results.
    apply pad_loop_overflows; [exact Hinterval | exact Hwindow | lia].
  - intros Hwindow fuel. unfold value_pad_results.
    assert (Hb : (shave start_time <? shave end_time) = false) by (apply Z.ltb_ge; lia).
    destruct fuel; cbn [pad_loop]; now rewrite Hb.
Qed.

Lemma pad_loop_python3 end_time interval value :
  forall fuel this_time results padded,
    pad_loop Python3 fuel this_time end_time interval value results = Ok padded ->
    padded = results.
Proof.
  induction fuel as [|fuel IH]; intros this_time results padded; cbn [pad_loop];
    destruct (this_time <? end_time); try discriminate;
    try (intros H; now inversion H).
  destruct (timedelta_seconds _) as [step|e]; cbn [and_then]; [|discriminate].
  destruct (datetime_add _ _) as [next|e]; cbn [and_then]; [|discriminate].
  cbn [not_filter]. apply IH.
Qed.

(** Under Python 3 [value_pad_results] pads nothing: [filter] gives an
    iterator, which is never false, so no point is appended.  Whenever the
    function returns, it returns its input; for a positive interval and a
    window within the range of [datetime] it does return, even for an input
    without any point. *)
Theorem value_pad_results_python3 (results : list ResultPoint)
    (start_time end_time interval : Z) (value : pyval) :
  (forall fuel padded,
     value_pad_results Python3 fuel results start_time end_time interval value = Ok padded ->
     padded = results) /\
  (walkable start_time end_time interval ->
   exists fuel0 : nat, forall fuel : nat, (fuel0 <= fuel)%nat ->
     value_pad_results Python3 fuel results start_time end_time interval value =
     Ok results).
Proof.
  assert (Hsame : forall fuel padded,
            value_pad_results Python3 fuel results start_time end_time interval value
            = Ok padded -> padded = results).
  { unfold value_pad_results. intros fuel padded. apply pad_loop_python3. }
  split; [exact Hsame|].
  intros Hwindow.
  destruct (value_pad_results_returns Python3 results start_time end_time
              interval value Hwindow) as [fuel0 Hreturns].
  exists fuel0. intros fuel Hfuel. destruct (Hreturns fuel Hfuel) as [padded Hrun].
  rewrite Hrun. f_equal. now apply (Hsame fuel).
Qed.

End MoreGapFillerFacts.

(** ** More on the lines of the two output paths *)

Section MoreLineFacts.
Import PyString Run Tables Logs Metrics.
Local Open Scope run_scope.

Lemma appends_fold_each_in {X A S} (log : World -> list X) (P : X -> Prop)
    (I : S -> Prop) (l : list A) (body : S -> A -> M S) :
  (forall s x, In x l -> I s -> appends log P I (body s x)) ->
  forall s, I s -> appends log P I (fold_each l body s).
Proof.
  induction l as [|x l IH]; intros Hbody s Hs; cbn [fold_each].
  - now apply appends_ret.
  - apply appends_bind with (Q := I).
    + apply Hbody; [now left | exact Hs].
    + intros s' Hs'. apply IH; [|exact Hs'].
      intros s0 y Hy. apply Hbody. now right.
Qed.

Lemma process_statistic_numbers py formatter_option options ingestion_time category
    context entry :
  emits (fun line => is_number py (line_value line) = true /\
                     line_time line = ingestion_time)
    (fun _ => True)
    (process_statistic py formatter_option options ingestion_time category context entry).
Proof.
  unfold process_statistic. destruct entry as [statistic value].
  destruct (is_number py value) eqn:Hnumber; [|now apply appends_ret].
  apply appends_bind with (Q := fun _ => True); [apply appends_lift_any | intros unit _].
  apply appends_bind with (Q := fun _ => True); [apply appends_lift_any | intros f _].
  apply appends_bind with (Q := fun _ => True); [|intros _ _; now apply appends_ret].
  unfold output_log_results. destruct f as [| | | |f| |]; try apply appends_raise.
  apply appends_bind with (Q := fun _ => True); [apply appends_lift_any | intros r _].
  apply emits_write; [|trivial]. cbn. now split.
Qed.

Lemma process_event_numbers py options context result :
  emits (fun line => is_number py (line_value line) = true /\
                     line_time line = divide py (ingestionTime result) 1000)
    (fun _ => True) (process_event py options context result).
Proof.
  unfold process_event.
  destruct (message result) as [[| | | | | |msg]|e]; try apply appends_raise.
  apply appends_bind with (Q := fun _ => True); [apply appends_lift_any | intros i _].
  apply appends_fold_each; [|trivial].
  intros c [category statistics] _. unfold process_category.
  destruct statistics as [| | | | |l|d]; try (now apply appends_ret).
  - apply appends_fold_each; [|trivial].
    intros c' statistic_dict _. unfold process_list_element.
    destruct statistic_dict as [| | | | | |d]; try apply appends_raise.
    apply appends_bind with (Q := fun _ => True); [apply appends_lift_any | intros s _].
    apply appends_fold_each; [|trivial].
    intros c'' entry _. apply process_statistic_numbers.
  - apply appends_fold_each; [|trivial].
    intros c' entry _. apply process_statistic_numbers.
Qed.

(** Every line the enhanced-monitoring path writes carries a value whose
    type is [int] or [float] (strings, booleans, [None], nested values and,
    under Python 2, integers that are a [long] are skipped without a line)
    and, as its time, [ingestionTime / 1000] of one of the events of the
    stream: whole seconds under Python 2, where [/] on two [int]s is the
    floor of the quotient, and the quotient itself, a [float] that is in
    general not whole, under Python 3. *)
Theorem process_log_results_lines (py : interpreter) (results : list LogEvent)
    (options : gmap string pyval) (w : World) :
  (exists new,
     stdout (snd (process_log_results py results options w)) = stdout w ++ new /\
     Forall (fun line =>
               is_number py (line_value line) = true /\
               exists result, In result results /\
                              line_time line = divide py (ingestionTime result) 1000) new) /\
  (forall maxint n, divide (Python2 maxint) n 1000 = PInt (n / 1000)) /\
  (forall n, divide Python3 n 1000 = PQuot n 1000) /\
  (forall v, is_number py v = true ->
     (exists f, v = VFloat f) \/
     (exists n, v = VInt n /\
                match py with
                | Python2 maxint => - maxint - 1 <= n <= maxint
                | Python3 => True
                end)).
Proof.
  split; [|split; [reflexivity | split; [reflexivity|]]].
  2:{ intros v Hv. destruct v as [| |n|f| | |]; try discriminate; [right | left; eauto].
      exists n. split; [reflexivity|]. destruct py as [maxint|]; [|exact I].
      cbn [is_number] in Hv. apply andb_true_iff in Hv as [Hlo Hhi].
      apply Z.leb_le in Hlo, Hhi. lia. }
  assert (Hemits : emits (fun line =>
              is_number py (line_value line) = true /\
              exists result, In result results /\
                             line_time line = divide py (ingestionTime result) 1000)
            (fun _ => True) (process_log_results py results options)).
  { unfold process_log_results, process_events.
    apply appends_bind with (Q := fun _ => True); [|intros _ _; now apply appends_ret].
    apply appends_fold_each_in; [|trivial].
    intros c result Hin _ w'.
    destruct (process_event_numbers py options c result w') as [(new & Hout & Hall) _].
    split; [|trivial]. exists new. split; [exact Hout|].
    eapply Forall_impl; [exact Hall|].
    intros line [Hnum Htime]. split; [exact Hnum|]. now exists result. }
  apply Hemits.
Qed.

End MoreLineFacts.

(** ** One line per result and statistic *)

Section MoreMetricLineFacts.
Import PyString Run Tables DateTime Logs Metrics.
Local Open Scope run_scope.

Lemma output_statistic_one formatter result context statistic w context' w' :
  output_statistic formatter result context statistic w = (Ok context', w') ->
  exists line,
    stdout w' = stdout w ++ [line] /\
    line_time line = PInt (timegm (Timestamp result)) /\
    point_item result statistic = Ok (line_value line).
Proof.
  unfold output_statistic, bind, lift, write, ret.
  destruct (subscript (fields result) "Unit") as [unit|e]; [|discriminate].
  destruct formatter as [| | | |f| |]; try discriminate.
  destruct (format f _) as [rendered|e]; [|discriminate].
  destruct (point_item result statistic) as [value|e]; [|discriminate].
  intros H. inversion H; subst. cbn. eexists. repeat split.
Qed.

Lemma output_statistics_times formatter result statistics :
  forall context w context' w',
    fold_each statistics (output_statistic formatter result) context w = (Ok context', w') ->
    exists new,
      stdout w' = stdout w ++ new /\
      map line_time new = repeat (PInt (timegm (Timestamp result))) (length statistics).
Proof.
  induction statistics as [|statistic statistics IH]; intros context w context' w' Hrun;
    cbn [fold_each] in Hrun.
  - inversion Hrun; subst. exists []. now rewrite app_nil_r.
  - unfold bind in Hrun.
    destruct (output_statistic formatter result context statistic w) as [[c1|e] w1] eqn:Hone;
      [|discriminate].
    apply output_statistic_one in Hone as (line & Hout1 & Htime & _).
    apply IH in Hrun as (new & Hout & Htimes).
    exists (line :: new). rewrite Hout, Hout1, <- app_assoc. split; [reflexivity|].
    cbn. now rewrite Htime, Htimes.
Qed.

Lemma output_result_times formatter metric statistics :
  metric !! "Statistics" = Some statistics ->
  forall results context w context' w',
    fold_each results (output_result formatter metric) context w = (Ok context', w') ->
    exists new,
      stdout w' = stdout w ++ new /\
      map line_time new =
      flat_map (fun result => repeat (PInt (timegm (Timestamp result)))
                                (length (stat_keys_of statistics))) results.
Proof.
  intros Hstat. induction results as [|result results IH];
    intros context w context' w' Hrun; cbn [fold_each] in Hrun.
  - inversion Hrun; subst. exists []. now rewrite app_nil_r.
  - unfold bind in Hrun.
    destruct (output_result formatter metric context result w) as [[c1|e] w1] eqn:Hone;
      [|discriminate].
    unfold output_result, bind, lift, item in Hone. rewrite Hstat in Hone.
    apply output_statistics_times in Hone as (new1 & Hout1 & Htimes1).
    apply IH in Hrun as (new2 & Hout2 & Htimes2).
    exists (new1 ++ new2). rewrite Hout2, Hout1, <- app_assoc. split; [reflexivity|].
    cbn [flat_map]. now rewrite map_app, Htimes1, Htimes2.
Qed.

(** When [output_results] returns, it has written one line per result and
    statistic, result by result and in the order of the results: a metric with
    [k] statistics (one when [Statistics] is a single name) and [n] results
    gives [n * k] lines, the [k] lines of a result carrying its timestamp in
    whole seconds.  A metric without [Statistics] is only accepted with an
    empty result set. *)
Theorem output_results_one_line_per_statistic (results : list ResultPoint)
    (metric options : gmap string pyval) (w w' : World)
    (Hreturns : output_results results metric options w = (Ok tt, w')) :
  exists new,
    stdout w' = stdout w ++ new /\
    match metric !! "Statistics" with
    | Some statistics =>
        map line_time new =
        flat_map (fun result => repeat (PInt (timegm (Timestamp result)))
                                  (length (stat_keys_of statistics))) results /\
        length new = (length results * length (stat_keys_of statistics))%nat
    | None => results = [] /\ new = []
    end.
Proof.
  unfold output_results, bind, lift in Hreturns.
  destruct (item options "Formatter") as [formatter|e]; [|discriminate].
  destruct (initial_context metric) as [context|e]; [|discriminate].
  destruct (fold_each results _ context w) as [[c|e] w1] eqn:Hfold; [|discriminate].
  inversion Hreturns; subst w1.
  destruct (metric !! "Statistics") as [statistics|] eqn:Hstat.
  - destruct (output_result_times formatter metric statistics Hstat results _ _ _ _ Hfold)
      as (new & Hout & Htimes).
    exists new. split; [exact Hout|]. split; [exact Htimes|].
    rewrite <- (length_map line_time), Htimes.
    clear. induction results as [|r results IH]; [reflexivity|].
    cbn [flat_map length]. rewrite length_app, repeat_length, IH. lia.
  - destruct results as [|result results].
    + cbn in Hfold. inversion Hfold; subst. exists []. now rewrite app_nil_r.
    + cbn [fold_each] in Hfold. unfold bind, output_result, lift, item in Hfold.
      rewrite Hstat in Hfold. discriminate.
Qed.

Lemma output_results_one_line_per_statistic_witness :
  exists new,
    stdout (mkWorld 0
              [mkLine "cloudwatch.aws.ec2.i-123.cpuutilization.average.percent"
                 (VFloat "1.5") (PInt 60)] []) = stdout (mkWorld 0 [] []) ++ new /\
    match cpu_metric !! "Statistics" with
    | Some statistics =>
        map line_time new =
        flat_map (fun result => repeat (PInt (timegm (Timestamp result)))
                                  (length (stat_keys_of statistics))) [cpu_point] /\
        length new = (length [cpu_point] * length (stat_keys_of statistics))%nat
    | None => [cpu_point] = [] /\ new = []
    end.
Proof.
  apply (output_results_one_line_per_statistic [cpu_point] cpu_metric
           OptionResolver.DEFAULT_OPTIONS).
  vm_compute. reflexivity.
Defined.

End MoreMetricLineFacts.

(** ** Failures stop the run *)

Section StopFacts.
Import PyString Run Tables Logs Metrics Remote Driver OptionResolver.
Local Open Scope run_scope.

Lemma for_each_stops {A} (before after : list A) (x : A) (body : A -> M unit)
    (w w1 w2 : World) (e : exn) :
  for_each before body w = (Ok tt, w1) ->
  body x w1 = (Raise e, w2) ->
  for_each (before ++ x :: after) body w = (Raise e, w2).
Proof.
  revert w. induction before as [|y before IH]; intros w Hbefore Hx; cbn [app for_each].
  - cbn in Hbefore. inversion Hbefore; subst. unfold bind. now rewrite Hx.
  - cbn [for_each] in Hbefore. unfold bind in *.
    destruct (body y w) as [[[]|e'] w']; [|discriminate]. now apply IH.
Qed.

Lemma fold_each_stops {A S} (before after : list A) (x : A) (body : S -> A -> M S)
    (s s1 : S) (w w1 w2 : World) (e : exn) :
  fold_each before body s w = (Ok s1, w1) ->
  body s1 x w1 = (Raise e, w2) ->
  fold_each (before ++ x :: after) body s w = (Raise e, w2).
Proof.
  revert s w. induction before as [|y before IH]; intros s w Hbefore Hx;
    cbn [app fold_each].
  - cbn in Hbefore. inversion Hbefore; subst. unfold bind. now rewrite Hx.
  - cbn [fold_each] in Hbefore. unfold bind in *.
    destruct (body s y w) as [[s'|e'] w']; [|discriminate]. now apply (IH s').
Qed.

(** There is no partial recovery in the driver: when the turn of one metric
    raises, the run ends with that exception in the world as it was then; the
    metrics after it are not fetched and the enhanced-monitoring pass is not
    run.  What was written before stays written. *)
Theorem leadbutt_stops_at_first_failure
    (py : interpreter) (fuel : nat) (conn : CloudWatch) (logs_conn : CloudWatchLogs)
    (config : Config) (cli_options : gmap string pyval) (kwargs : Kwargs)
    (policy : RetryPolicy)
    (before after : list (gmap string pyval)) (metric : gmap string pyval)
    (w w1 w2 : World) (e : exn)
    (Hpolicy : retry_policy cli_options kwargs = Ok policy)
    (Hmetrics : cfg_Metrics config = Some (before ++ metric :: after))
    (Hbefore : for_each before
                 (process_metric py fuel policy conn kwargs (cfg_Options config)
                    cli_options) w
               = (Ok tt, w1))
    (Hfails : process_metric py fuel policy conn kwargs (cfg_Options config) cli_options
                metric w1 = (Raise e, w2)) :
  leadbutt py fuel conn logs_conn config cli_options kwargs w = (Raise e, w2).
Proof.
  unfold leadbutt, bind, lift. rewrite Hpolicy, Hmetrics.
  now rewrite (for_each_stops before after metric _ w w1 w2 e Hbefore Hfails).
Qed.

Lemma leadbutt_stops_at_first_failure_witness :
  leadbutt python27 10 no_data flaky_logs
    (mkConfig (Some errors_options) (Some ([] ++ errors_metric :: [cpu_metric]))
       (Some (<["LogGroup" := VStr "RDSOSMetrics"]> ∅)))
    five_by_one (mkKwargs (Some 50) (Some 4000)) (mkWorld 1000000500000 [] []) =
  (Raise (KeyError (VStr "Average")),
   mkWorld 1000000500000 []
     [EvMetricCall 1000000500000
        (mkMetricRequest 60 999660500000 999960500000
           (VStr "HTTPCode_Backend_5XX") (VStr "AWS/ELB") (VStr "Average")
           (VDict [("LoadBalancerName", VStr "web")]) None)]).
Proof.
  apply (leadbutt_stops_at_first_failure python27 10 no_data flaky_logs
           (mkConfig (Some errors_options) (Some ([] ++ errors_metric :: [cpu_metric]))
              (Some (<["LogGroup" := VStr "RDSOSMetrics"]> ∅)))
           five_by_one (mkKwargs (Some 50) (Some 4000)) default_policy
           [] [cpu_metric] errors_metric
           (mkWorld 1000000500000 [] []) (mkWorld 1000000500000 [] [])).
  - vm_compute. reflexivity.
  - reflexivity.
  - reflexivity.
  - vm_compute. reflexivity.
Defined.

Lemma process_log_results_returns py results options w w1 :
  process_log_results py results options w = (Ok tt, w1) ->
  exists context, process_events py options results ∅ w = (Ok context, w1).
Proof.
  unfold process_log_results, bind, ret.
  destruct (process_events py options results ∅ w) as [[context|e] w'];
    [|discriminate].
  intros H. inversion H; subst. now exists context.
Qed.

Lemma process_event_refused py options context bad e w :
  refused_with bad = Some e ->
  process_event py options context bad w = (Raise e, w).
Proof.
  unfold refused_with, process_event.
  destruct (message bad) as [v|e'].
  - destruct v as [| | | | | |msg]; try (intros H; now inversion H).
    unfold bind, lift, subscript.
    destruct (dict_get msg "instanceID"); [discriminate|].
    intros H. now inversion H.
  - intros H. now inversion H.
Qed.

(** An event that cannot be read stops the stream, under either
    interpreter.  When the events before it were processed, an event that is
    refused ends [process_log_results] with the exception it is refused with,
    before anything is written for it: the exception [ast.literal_eval]
    raised for its message ([SyntaxError] for a text that is no Python
    expression, [ValueError] for an expression that is no literal),
    [TypeError] for a message that is not a mapping, [KeyError] for a
    mapping without [instanceID].  The lines of the earlier events stay
    written and the later events are not looked at. *)
Theorem process_log_results_stops_at_bad_event
    (py : interpreter) (options : gmap string pyval) (earlier later : list LogEvent)
    (bad : LogEvent) (w w1 : World) (e : exn)
    (Hearlier : process_log_results py earlier options w = (Ok tt, w1))
    (Hbad : refused_with bad = Some e) :
  process_log_results py (earlier ++ bad :: later) options w = (Raise e, w1) /\
  match message bad with
  | Raise raised => e = raised
  | Ok (VDict msg) => dict_get msg "instanceID" = None /\ e = KeyError (VStr "instanceID")
  | Ok _ => e = TypeError
  end.
Proof.
  split.
  - apply process_log_results_returns in Hearlier as [context Hearlier].
    unfold process_log_results, process_events. unfold bind at 1.
    now rewrite (fold_each_stops earlier later bad _ ∅ context w w1 w1 e Hearlier
                   (process_event_refused py options context bad e w1 Hbad)).
  - unfold refused_with in Hbad. destruct (message bad) as [v|raised].
    + destruct v as [| | | | | |msg]; try (now inversion Hbad).
      destruct (dict_get msg "instanceID"); [discriminate|]. now inversion Hbad.
    + now inversion Hbad.
Qed.

Lemma process_log_results_stops_at_bad_event_witness :
  process_log_results python27 ([disk_event "xvda"] ++ garbled_event :: [cpu_event])
    sub_category_options fresh =
  (Raise SyntaxError,
   mkWorld 0 [mkLine "db1.xvda.diskio.util" (VFloat "3.0") (PInt 1000)] []) /\
  match message garbled_event with
  | Raise raised => SyntaxError = raised
  | Ok (VDict msg) =>
      dict_get msg "instanceID" = None /\ SyntaxError = KeyError (VStr "instanceID")
  | Ok _ => SyntaxError = TypeError
  end.
Proof.
  apply (process_log_results_stops_at_bad_event python27 sub_category_options
           [disk_event "xvda"] [cpu_event] garbled_event fresh
           (mkWorld 0 [mkLine "db1.xvda.diskio.util" (VFloat "3.0") (PInt 1000)] [])
           SyntaxError).
  - vm_compute. reflexivity.
  - reflexivity.
Defined.

(** The same stream under Python 3, with an event whose message is a list,
    one whose message has no [instanceID] and one whose message is an
    expression but no literal. *)
Example process_log_results_refuses :
  process_log_results Python3
    [disk_event "xvda"; mkLogEvent 3000000 (Ok (VList [])); cpu_event]
    sub_category_options fresh =
  (Raise TypeError,
   mkWorld 0 [mkLine "db1.xvda.diskio.util" (VFloat "3.0") (PQuot 1000000 1000)] []) /\
  process_log_results Python3
    [disk_event "xvda"; mkLogEvent 3000000 (Ok (VDict [("cpuUtilization", VDict [])]));
     cpu_event]
    sub_category_options fresh =
  (Raise (KeyError (VStr "instanceID")),
   mkWorld 0 [mkLine "db1.xvda.diskio.util" (VFloat "3.0") (PQuot 1000000 1000)] []) /\
  process_log_results Python3
    [disk_event "xvda"; mkLogEvent 3000000 (Raise ValueError); cpu_event]
    sub_category_options fresh =
  (Raise ValueError,
   mkWorld 0 [mkLine "db1.xvda.diskio.util" (VFloat "3.0") (PQuot 1000000 1000)] []).
Proof.
  repeat split; vm_compute; reflexivity.
Qed.

End StopFacts.

(** ** The enhanced-monitoring pass *)

Section EnhancedPassFacts.
Import PyString Run Tables Logs Metrics Remote Driver OptionResolver.
Local Open Scope run_scope.

Lemma enhanced_monitoring_pass_plan py logs_conn config_options cli_options
    enhanced_monitoring w :
  enhanced_monitoring_pass py logs_conn config_options cli_options enhanced_monitoring w =
  match enhanced_plan config_options cli_options enhanced_monitoring (now w) with
  | Ok plan =>
      bind (describe_log_streams logs_conn (lp_group plan)) (fun streams =>
        for_each streams
          (process_stream py logs_conn (lp_options plan) (lp_group plan)
             (lp_start_time plan) (lp_end_time plan))) w
  | Raise e => (Raise e, w)
  end.
Proof.
  unfold enhanced_monitoring_pass, enhanced_plan.
  unfold bind at 1. unfold lift at 1.
  destruct (and_then (item _ "Period") as_int) as [period|e]; cbn [and_then]; [|reflexivity].
  unfold bind at 1. unfold lift at 1.
  destruct (and_then (item _ "Count") as_int) as [count_local|e]; cbn [and_then];
    [|reflexivity].
  unfold bind at 1. unfold lift at 1.
  destruct (item enhanced_monitoring "LogGroup") as [log_group|e]; cbn [and_then];
    [|reflexivity].
  unfold bind at 1.
  destruct (enhanced_monitoring !! "ListFormatter") as [lf|].
  - cbn [ret and_then]. unfold bind at 1, clock at 1. unfold bind at 1, clock at 1.
    unfold bind at 1, lift at 1.
    destruct (log_end_time_of _ _ _) as [end_time|e]; cbn [and_then]; reflexivity.
  - unfold lift at 1.
    destruct (item _ "Formatter") as [lf|e]; cbn [and_then]; [|reflexivity].
    unfold bind at 1, clock at 1. unfold bind at 1, clock at 1.
    unfold bind at 1, lift at 1.
    destruct (log_end_time_of _ _ _) as [end_time|e]; cbn [and_then]; reflexivity.
Qed.

Lemma records_sleep_ms (P : Event -> Prop) py ms :
  (forall t, P (EvSleep t ms)) -> records P (fun _ => True) (sleep_ms py ms).
Proof.
  intros Hp w. unfold sleep_ms. split; [|trivial].
  destruct (ms <? 0); cbn [snd trace].
  - exists []. now rewrite app_nil_r.
  - exists [EvSleep (now w) ms]. split; [reflexivity | now constructor].
Qed.

Lemma records_remote_call {A} (P : Event -> Prop) ev (reply : N * answer A) :
  P ev -> records P (fun _ => True) (remote_call ev reply).
Proof.
  intros Hp w. unfold remote_call. split; [|trivial].
  exists [ev]. split; [now destruct (snd reply) | now constructor].
Qed.

Lemma process_log_results_records (P : Event -> Prop) py results options :
  records P (fun _ => True) (process_log_results py results options).
Proof.
  assert (Hstat : forall fo t cat c entry,
            records P (fun _ => True) (process_statistic py fo options t cat c entry)).
  { intros fo t cat c [statistic value]. unfold process_statistic.
    destruct (is_number py value); [|now apply appends_ret].
    apply appends_bind with (Q := fun _ => True); [apply appends_lift_any | intros u _].
    apply appends_bind with (Q := fun _ => True); [apply appends_lift_any | intros f _].
    apply appends_bind with (Q := fun _ => True); [|intros _ _; now apply appends_ret].
    unfold output_log_results. destruct f as [| | | |f| |]; try apply appends_raise.
    apply appends_bind with (Q := fun _ => True); [apply appends_lift_any | intros r _].
    apply records_write. }
  unfold process_log_results, process_events.
  apply appends_bind with (Q := fun _ => True); [|intros _ _; now apply appends_ret].
  apply appends_fold_each; [|trivial].
  intros c result _. unfold process_event.
  destruct (message result) as [[| | | | | |msg]|e]; try apply appends_raise.
  apply appends_bind with (Q := fun _ => True); [apply appends_lift_any | intros i _].
  apply appends_fold_each; [|trivial].
  intros c' [category statistics] _. unfold process_category.
  destruct statistics as [| | | | |l|d]; try (now apply appends_ret).
  - apply appends_fold_each; [|trivial].
    intros c'' statistic_dict _. unfold process_list_element.
    destruct statistic_dict as [| | | | | |d]; try apply appends_raise.
    apply appends_bind with (Q := fun _ => True); [apply appends_lift_any | intros s _].
    apply appends_fold_each; [|trivial]. intros c3 entry _. apply Hstat.
  - apply appends_fold_each; [|trivial]. intros c'' entry _. apply Hstat.
Qed.

(** The enhanced-monitoring pass computes its window once, before the first
    call: every request for log events it makes, whatever the stream, carries
    the same window, whose length is [Period * 60 * Count] seconds, the
    configured log group, a limit of 50 events and reading from the tail;
    between streams it waits half a second, and it never calls the metrics
    service.  When the options, the log group or the period cannot be used it
    raises before any call. *)
Theorem enhanced_monitoring_pass_requests (py : interpreter) (logs_conn : CloudWatchLogs)
    (config_options : option (gmap string pyval))
    (cli_options enhanced_monitoring : gmap string pyval) (w : World) :
  let out := enhanced_monitoring_pass py logs_conn config_options cli_options
               enhanced_monitoring w in
  match enhanced_plan config_options cli_options enhanced_monitoring (now w) with
  | Raise e => out = (Raise e, w)
  | Ok plan =>
      lp_end_time plan - lp_start_time plan = lp_period plan * lp_count plan * 1000 /\
      enhanced_monitoring !! "LogGroup" = Some (lp_group plan) /\
      exists new,
        trace (snd out) = trace w ++ new /\ Forall (log_event_of_plan plan) new
  end.
Proof.
  cbn zeta. rewrite enhanced_monitoring_pass_plan.
  destruct (enhanced_plan _ _ _ _) as [plan|e] eqn:Hplan; [|reflexivity].
  assert (Hfields : lp_end_time plan - lp_start_time plan =
                    lp_period plan * lp_count plan * 1000 /\
                    enhanced_monitoring !! "LogGroup" = Some (lp_group plan)).
  { unfold enhanced_plan in Hplan.
    destruct (and_then (item _ "Period") as_int) as [period|e]; cbn [and_then] in Hplan;
      [|discriminate].
    destruct (and_then (item _ "Count") as_int) as [count_local|e]; cbn [and_then] in Hplan;
      [|discriminate].
    unfold item at 1 in Hplan.
    destruct (enhanced_monitoring !! "LogGroup") as [log_group|]; cbn [and_then] in Hplan;
      [|discriminate].
    destruct (enhanced_monitoring !! "ListFormatter") as [lf|];
      [|destruct (item _ "Formatter") as [lf|e]; [|discriminate]];
      cbn [and_then] in Hplan;
      (destruct (log_end_time_of _ _ _) as [end_time|e]; cbn [and_then] in Hplan;
       [|discriminate]);
      inversion Hplan; subst; cbn; (split; [lia | reflexivity]). }
  destruct Hfields as [Hlength Hgroup].
  split; [exact Hlength|]. split; [exact Hgroup|].
  assert (Hrecords : records (log_event_of_plan plan) (fun _ => True)
            (bind (describe_log_streams logs_conn (lp_group plan)) (fun streams =>
               for_each streams
                 (process_stream py logs_conn (lp_options plan) (lp_group plan)
                    (lp_start_time plan) (lp_end_time plan))))).
  { apply appends_bind with (Q := fun _ => True).
    { intros w'. apply records_remote_call. reflexivity. }
    intros streams _. apply appends_for_each. intros stream _. unfold process_stream.
    apply appends_bind with (Q := fun _ => True).
    { intros w'. apply records_remote_call. reflexivity. }
    intros results _.
    apply appends_bind with (Q := fun _ => True); [apply process_log_results_records|].
    intros _ _. apply records_sleep_ms. reflexivity. }
  apply Hrecords.
Qed.

(** The formatters of the enhanced-monitoring pass: [Formatter] is the one of
    the [EnhancedMonitoring] section when it has one and the resolved option
    otherwise; [ListFormatter] is the one of the section when it has one and
    otherwise that [Formatter], so a [ListFormatter] given among the options
    is never used; every other option is the resolved one. *)
Theorem enhanced_monitoring_formatters
    (config_options : option (gmap string pyval))
    (cli_options enhanced_monitoring : gmap string pyval) (now : Z) (plan : LogPlan)
    (Hplan : enhanced_plan config_options cli_options enhanced_monitoring now = Ok plan) :
  let resolved := get_options config_options None (Some cli_options) in
  exists formatter,
    match enhanced_monitoring !! "Formatter" with
    | Some f => formatter = f
    | None => resolved !! "Formatter" = Some formatter
    end /\
    lp_options plan !! "Formatter" = Some formatter /\
    lp_options plan !! "ListFormatter" =
      Some (match enhanced_monitoring !! "ListFormatter" with
            | Some f => f
            | None => formatter
            end) /\
    forall k, k <> "Formatter" -> k <> "ListFormatter" ->
              lp_options plan !! k = resolved !! k.
Proof.
  cbn zeta. unfold enhanced_plan in Hplan.
  destruct (and_then (item _ "Period") as_int) as [period|e]; cbn [and_then] in Hplan;
    [|discriminate].
  destruct (and_then (item _ "Count") as_int) as [count_local|e]; cbn [and_then] in Hplan;
    [|discriminate].
  destruct (item enhanced_monitoring "LogGroup") as [log_group|e]; cbn [and_then] in Hplan;
    [|discriminate].
  set (resolved := get_options config_options None (Some cli_options)) in *.
  assert (Hdefault : exists f0, resolved !! "Formatter" = Some f0).
  { destruct (get_options_defines_defaults_helper config_options None (Some cli_options))
      as [f0 Hf0]. now exists f0. }
  destruct Hdefault as [f0 Hf0].
  destruct (enhanced_monitoring !! "Formatter") as [f|] eqn:Hf;
    destruct (enhanced_monitoring !! "ListFormatter") as [lf|] eqn:Hlf;
    unfold item in Hplan;
    rewrite ?lookup_insert_eq, ?Hf0 in Hplan; cbn [and_then] in Hplan;
    (destruct (log_end_time_of _ _ _) as [end_time|e]; cbn [and_then] in Hplan;
     [|discriminate]);
    inversion Hplan; subst plan; cbn [lp_options].
  - exists f. split; [reflexivity|]. split.
    { rewrite lookup_insert_ne by discriminate. apply lookup_insert_eq. }
    split; [apply lookup_insert_eq|].
    intros k H1 H2. now rewrite !lookup_insert_ne by congruence.
  - exists f. split; [reflexivity|]. split.
    { rewrite lookup_insert_ne by discriminate. apply lookup_insert_eq. }
    split; [apply lookup_insert_eq|].
    intros k H1 H2. now rewrite !lookup_insert_ne by congruence.
  - exists f0. split; [exact Hf0|]. split.
    { now rewrite lookup_insert_ne by discriminate. }
    split; [apply lookup_insert_eq|].
    intros k H1 H2. now rewrite !lookup_insert_ne by congruence.
  - exists f0. split; [exact Hf0|]. split.
    { now rewrite lookup_insert_ne by discriminate. }
    split; [apply lookup_insert_eq|].
    intros k H1 H2. now rewrite !lookup_insert_ne by congruence.
Qed.

Lemma enhanced_monitoring_formatters_witness :
  let enhanced_monitoring : gmap string pyval :=
    <["LogGroup" := VStr "RDSOSMetrics"]> (<["Formatter" := VStr "rds.%(MetricName)s"]> ∅) in
  let config_options : gmap string pyval :=
    <["ListFormatter" := VStr "unused.%(ListCategory)s"]> ∅ in
  let resolved := get_options (Some config_options) None (Some five_by_one) in
  match enhanced_plan (Some config_options) five_by_one enhanced_monitoring 90500000 with
  | Raise _ => False
  | Ok plan =>
      exists formatter,
        match enhanced_monitoring !! "Formatter" with
        | Some f => formatter = f
        | None => resolved !! "Formatter" = Some formatter
        end /\
        lp_options plan !! "Formatter" = Some formatter /\
        lp_options plan !! "ListFormatter" =
          Some (match enhanced_monitoring !! "ListFormatter" with
                | Some f => f
                | None => formatter
                end) /\
        forall k, k <> "Formatter" -> k <> "ListFormatter" ->
                  lp_options plan !! k = resolved !! k
  end.
Proof.
  cbn zeta.
  destruct (enhanced_plan _ _ _ _) as [plan|e] eqn:Hplan.
  - exact (enhanced_monitoring_formatters _ _ _ _ plan Hplan).
  - vm_compute in Hplan. discriminate Hplan.
Defined.

(** With the section [{LogGroup, Formatter}] and a [ListFormatter] among the
    options, the list-shaped categories are written with the section's
    [Formatter]. *)
Example enhanced_monitoring_ignores_option_ListFormatter :
  exists plan,
    enhanced_plan (Some (<["ListFormatter" := VStr "unused.%(ListCategory)s"]> ∅)) five_by_one
      (<["LogGroup" := VStr "RDSOSMetrics"]> (<["Formatter" := VStr "rds.%(MetricName)s"]> ∅))
      90500000 = Ok plan /\
    lp_options plan !! "ListFormatter" = Some (VStr "rds.%(MetricName)s") /\
    lp_start_time plan = -240000 /\ lp_end_time plan = 60000.
Proof. eexists. split; [vm_compute; reflexivity|]. repeat split; vm_compute; reflexivity. Qed.

(** The decorator is evaluated when [leadbutt] starts: command-line options
    without [Count] make the run raise [KeyError] before the configuration is
    looked at; and with nothing configured (no [Metrics], or an empty list,
    and no [EnhancedMonitoring], or an empty section) the run returns without
    a call, a wait or a line. *)
Theorem leadbutt_with_nothing_to_do (py : interpreter) (fuel : nat) (conn : CloudWatch)
    (logs_conn : CloudWatchLogs) (config : Config) (cli_options : gmap string pyval)
    (kwargs : Kwargs) (w : World) :
  (cli_options !! "Count" = None ->
   leadbutt py fuel conn logs_conn config cli_options kwargs w =
   (Raise (KeyError (VStr "Count")), w)) /\
  (forall count period,
     cli_options !! "Count" = Some (VInt count) ->
     cli_options !! "Period" = Some (VInt period) ->
     cfg_Metrics config = None \/ cfg_Metrics config = Some [] ->
     cfg_EnhancedMonitoring config = None \/ cfg_EnhancedMonitoring config = Some ∅ ->
     leadbutt py fuel conn logs_conn config cli_options kwargs w = (Ok tt, w)).
Proof.
  split.
  - intros Hcount. unfold leadbutt, bind, lift, retry_policy, item. now rewrite Hcount.
  - intros count period Hcount Hperiod Hmetrics Henhanced.
    unfold leadbutt, bind, lift, retry_policy, item. rewrite Hcount, Hperiod.
    cbn [and_then as_int].
    destruct Hmetrics as [-> | ->], Henhanced as [-> | ->]; cbn [for_each ret]; try reflexivity;
      destruct (decide _) as [_|Hsize]; try reflexivity;
      exfalso; apply Hsize; apply map_size_empty.
Qed.

End EnhancedPassFacts.
